(** * sktime.proba: labelled tables of distributions, indexing and subsetting

    A shallow embedding of [sktime/proba/base.py], [sktime/proba/normal.py]
    and [sktime/proba/tfd.py].

    - Python objects live in a store ([world]); a reference is an address,
      so that "the same instance" and "a new object" are different things.
    - Exceptions are values of [exn]; a computation that may raise returns
      a [result], a method that also reads or extends the store is in [M].
    - numpy arrays are [ndarray]s of rank 0, 1 or 2 over an arbitrary cell
      type; pandas indexes are lists of labels.  The numpy and pandas
      primitives the code calls are modelled after their documentation,
      each under the name it has in the source.

    [normal.py] imports [BaseDistribution] and [tfd.py] imports
    [_BaseTFDistribution] from [base.py], which defines those two classes
    under the names [BaseProba] and [_BaseTFProba]; the embedding reads
    the imports as these classes.  [BaseProba.__init__] stores the labels
    and then calls [BaseObject.__init__] and [_check_estimator_deps],
    which live in other files and touch nothing the methods here read;
    a constructor is modelled by the object it leaves in the store. *)

From stdpp Require Import gmap strings list fin_maps pretty.

Local Open Scope Z_scope.

(** ** Exceptions and results *)

Inductive exn :=
  | ValueError (msg : string)
  | IndexError
  | KeyError
  | TypeError
  | AttributeError
  | ReferenceError.

Inductive result (A : Type) :=
  | Ok (a : A)
  | Raise (e : exn).
Arguments Ok {A} a.
Arguments Raise {A} e.

#[global] Instance result_ret : MRet result := @Ok.
#[global] Instance result_bind : MBind result := λ A B f r,
  match r with Ok a => f a | Raise e => Raise e end.


(** [l[p]] for a position already known to the caller; a position past the
    end is an [IndexError]. *)
Definition item {A} (l : list A) (p : nat) : result A :=
  match l !! p with Some x => Ok x | None => Raise IndexError end.

(** ** Selectors

    What can stand at one axis of an indexing key: a slice object, a
    single value, or a list-like of values ([list], [ndarray], [pd.Index]).
    Python's [None] for a whole axis is [option]'s [None]. *)

Inductive selector (A : Type) :=
  | Slice (start stop step : option Z)
  | Scalar (a : A)
  | ListLike (xs : list A).
Arguments Slice {A} start stop step.
Arguments Scalar {A} a.
Arguments ListLike {A} xs.

(** ** numpy *)

Module np.
Section Array.
Context {V : Type}.

(** An array of cells.  [Arr2 ncols rows] has shape
    [(length rows, ncols)]; the column count is kept apart because an
    array may have zero rows.  An array of higher rank is an [Arr2]
    whose cells are its trailing sub-arrays. *)
Inductive ndarray :=
  | Arr0 (x : V)
  | Arr1 (xs : list V)
  | Arr2 (ncols : nat) (rows : list (list V)).

Definition shape (a : ndarray) : list nat :=
  match a with
  | Arr0 _ => []
  | Arr1 xs => [length xs]
  | Arr2 ncols rows => [length rows; ncols]
  end.

(** An integer index [i] on an axis of length [n]: [0 <= i < n] counts
    from the front, [-n <= i < 0] from the back, anything else is out of
    bounds. *)
Definition normalize_index (n : nat) (i : Z) : result nat :=
  if decide (0 ≤ i < Z.of_nat n) then Ok (Z.to_nat i)
  else if decide (- Z.of_nat n ≤ i < 0) then Ok (Z.to_nat (Z.of_nat n + i))
  else Raise IndexError.

(** [slice.indices(n)]: the positions a slice selects on an axis of
    length [n], as CPython computes them. *)
Definition slice_positions (start stop step : option Z) (n : nat)
    : result (list nat) :=
  let st := default 1 step in
  if decide (st = 0) then Raise (ValueError "slice step cannot be zero")
  else
    let lower := if decide (st < 0) then -1 else 0 in
    let upper := if decide (st < 0) then Z.of_nat n - 1 else Z.of_nat n in
    let clamp (x : Z) :=
      if decide (x < 0) then Z.max (x + Z.of_nat n) lower else Z.min x upper in
    let a := match start with
             | None => if decide (st < 0) then upper else lower
             | Some x => clamp x
             end in
    let b := match stop with
             | None => if decide (st < 0) then lower else upper
             | Some x => clamp x
             end in
    let len := if decide (st < 0)
               then (if decide (b < a) then (a - b - 1) `div` (- st) + 1 else 0)
               else (if decide (a < b) then (b - a - 1) `div` st + 1 else 0) in
    Ok ((λ k : nat, Z.to_nat (a + Z.of_nat k * st)) <$> seq 0 (Z.to_nat len)).

(** The positions an integer list-like selects on an axis of length
    [n]: every entry is checked against the axis. *)
Definition list_positions (xs : list Z) (n : nat) : result (list nat) :=
  mapM (normalize_index n) xs.

(** [l[idx]] along one axis of a list of items. *)
Definition pick {A} (ps : list nat) (l : list A) : result (list A) :=
  mapM (item l) ps.

(** [arr[idx]]: indexing along the first axis. *)
Definition getitem (arr : ndarray) (idx : selector Z) : result ndarray :=
  match arr with
  | Arr0 _ => Raise IndexError
  | Arr1 xs =>
      match idx with
      | Scalar i =>
          p ← normalize_index (length xs) i; x ← item xs p; Ok (Arr0 x)
      | ListLike js =>
          ps ← list_positions js (length xs); ys ← pick ps xs; Ok (Arr1 ys)
      | Slice start stop step =>
          ps ← slice_positions start stop step (length xs);
          ys ← pick ps xs; Ok (Arr1 ys)
      end
  | Arr2 ncols rows =>
      match idx with
      | Scalar i =>
          p ← normalize_index (length rows) i; r ← item rows p; Ok (Arr1 r)
      | ListLike js =>
          ps ← list_positions js (length rows);
          rs ← pick ps rows; Ok (Arr2 ncols rs)
      | Slice start stop step =>
          ps ← slice_positions start stop step (length rows);
          rs ← pick ps rows; Ok (Arr2 ncols rs)
      end
  end.

(** [arr[:, idx]]: indexing along the second axis. *)
Definition getitem_cols (arr : ndarray) (idx : selector Z) : result ndarray :=
  match arr with
  | Arr0 _ | Arr1 _ => Raise IndexError
  | Arr2 ncols rows =>
      match idx with
      | Scalar j =>
          p ← normalize_index ncols j;
          col ← mapM (λ r, item r p) rows; Ok (Arr1 col)
      | ListLike js =>
          ps ← list_positions js ncols;
          rs ← mapM (pick ps) rows; Ok (Arr2 (length ps) rs)
      | Slice start stop step =>
          ps ← slice_positions start stop step ncols;
          rs ← mapM (pick ps) rows; Ok (Arr2 (length ps) rs)
      end
  end.

(** [np.broadcast_shapes] on shapes of rank at most two: the shapes are
    aligned at their last axis, and two lengths agree when they are
    equal or one of them is 1. *)
Definition broadcast_dim (m n : nat) : result nat :=
  if decide (m = n) then Ok m
  else if decide (m = 1%nat) then Ok n
  else if decide (n = 1%nat) then Ok m
  else Raise (ValueError "shape mismatch: objects cannot be broadcast to a single shape").

Fixpoint broadcast_rev (s1 s2 : list nat) : result (list nat) :=
  match s1, s2 with
  | [], s | s, [] => Ok s
  | m :: s1', n :: s2' =>
      d ← broadcast_dim m n; s ← broadcast_rev s1' s2'; Ok (d :: s)
  end.

Definition broadcast_shapes (s1 s2 : list nat) : result (list nat) :=
  s ← broadcast_rev (reverse s1) (reverse s2); Ok (reverse s).

(** Stretch an axis of length 1 to length [n]; an axis that already has
    length [n] stays. *)
Definition stretch {A} (n : nat) (l : list A) : list A :=
  match l with
  | [x] => replicate n x
  | _ => l
  end.

(** [np.broadcast_to(arr, shape)] for a shape [arr] broadcasts to. *)
Definition broadcast_to (arr : ndarray) (s : list nat) : ndarray :=
  match s, arr with
  | [n], Arr0 x => Arr1 (replicate n x)
  | [n], Arr1 xs => Arr1 (stretch n xs)
  | [n; m], Arr0 x => Arr2 m (replicate n (replicate m x))
  | [n; m], Arr1 xs => Arr2 m (replicate n (stretch m xs))
  | [n; m], Arr2 _ rows => Arr2 m (stretch n (stretch m <$> rows))
  | _, _ => arr
  end.

(** [np.broadcast_arrays(a, b)]. *)
Definition broadcast_arrays (a b : ndarray) : result (ndarray * ndarray) :=
  s ← broadcast_shapes (shape a) (shape b);
  Ok (broadcast_to a s, broadcast_to b s).

End Array.
Arguments ndarray V : clear implicits.
End np.

Import np.

(** ** pandas *)

Inductive label :=
  | LInt (z : Z)
  | LStr (s : string).

#[global] Instance label_eq_dec : EqDecision label.
Proof. solve_decision. Defined.

Module pd.

(** [pd.RangeIndex(n)]: the labels [0, ..., n-1]. *)
Definition RangeIndex (n : nat) : list label :=
  (λ k : nat, LInt (Z.of_nat k)) <$> seq 0 n.

(** The positions at which [l] stands in the index, in ascending
    order. *)
Fixpoint positions_of (l : label) (idx : list label) (from : nat) : list nat :=
  match idx with
  | [] => []
  | x :: idx' =>
      if decide (x = l) then from :: positions_of l idx' (S from)
      else positions_of l idx' (S from)
  end.

(** [Index.get_indexer_for(target)]: for every label of the target, in
    order, the positions at which the index holds it, and [-1] for a
    label the index does not hold.  The target is turned into an index
    first, which a scalar or a slice object is refused for. *)
Definition get_indexer_for (idx : list label) (target : selector label)
    : result (list Z) :=
  match target with
  | ListLike ls =>
      Ok (ls ≫= λ l,
            match positions_of l idx 0 with
            | [] => [-1]
            | ps => Z.of_nat <$> ps
            end)
  | Scalar _ | Slice _ _ _ => Raise TypeError
  end.

(** [Index.take(indices)]: the labels at the given positions, negative
    positions counting from the end as in numpy; the indices have to be
    array-like. *)
Definition take (idx : list label) (indices : selector Z) : result (list label) :=
  match indices with
  | ListLike js => ps ← list_positions js (length idx); pick ps idx
  | Scalar _ | Slice _ _ _ => Raise TypeError
  end.

End pd.

(** ** Cells

    The code never computes with the cells of a parameter array, it only
    moves them; so the cell type is arbitrary.  It has to hold Python's
    booleans and strings, because a distribution's parameter dictionary
    also has flags and a name in it. *)

Class PyCell (V : Type) := {
  of_bool : bool → V;
  of_str : string → V;
}.

(** ** tensorflow_probability *)

Module tfd.
Section Distributions.
Context {V : Type} `{!PyCell V}.

(** A distribution class, as far as calling it goes: the arguments its
    constructor requires and the ones it has defaults for. *)
Record distr_type := {
  type_name : string;
  required : gset string;
  defaults : gmap string (ndarray V);
}.

(** A distribution object: its class and its [parameters], the
    dictionary of the arguments its constructor was called with,
    defaults filled in. *)
Record distribution := {
  type : distr_type;
  parameters : gmap string (ndarray V);
}.

(** Calling the class with keyword arguments: a missing required
    argument or an unexpected keyword is a [TypeError]. *)
Definition call (ty : distr_type) (kwargs : gmap string (ndarray V))
    : result distribution :=
  if decide (required ty ⊆ dom kwargs ∧
             dom kwargs ⊆ required ty ∪ dom (defaults ty))
  then Ok {| type := ty; parameters := kwargs ∪ defaults ty |}
  else Raise TypeError.

(** [tfd.Normal(loc, scale, validate_args=False, allow_nan_stats=True,
    name='Normal')]. *)
Definition Normal : distr_type := {|
  type_name := "Normal";
  required := {[ "loc"; "scale" ]};
  defaults := {[ "validate_args" := Arr0 (of_bool false);
                 "allow_nan_stats" := Arr0 (of_bool true);
                 "name" := Arr0 (of_str "Normal") ]};
|}.

(** [distr.batch_shape] of a [tfd.Normal]: the shape [loc] and [scale]
    broadcast to. *)
Definition batch_shape (d : distribution) : result (list nat) :=
  match parameters d !! "loc", parameters d !! "scale" with
  | Some loc, Some scale => broadcast_shapes (shape loc) (shape scale)
  | _, _ => Raise AttributeError
  end.

End Distributions.
Arguments distr_type V : clear implicits.
Arguments distribution V : clear implicits.
End tfd.

(** ** Objects and the store *)

Inductive klass :=
  | C_BaseProba       (* base.BaseProba *)
  | C_BaseTFProba     (* base._BaseTFProba *)
  | C_Normal          (* normal.Normal, a BaseProba *)
  | C_tfd_Normal.     (* tfd.Normal, a _BaseTFProba *)

#[global] Instance klass_eq_dec : EqDecision klass.
Proof. solve_decision. Defined.

(** [issubclass(c, d)]. *)
Definition issubclass (c d : klass) : bool :=
  match c, d with
  | _, C_BaseProba => true
  | C_BaseTFProba, C_BaseTFProba | C_tfd_Normal, C_BaseTFProba => true
  | C_Normal, C_Normal => true
  | C_tfd_Normal, C_tfd_Normal => true
  | _, _ => false
  end.

Definition addr := nat.

(** What a method returns: a reference to a table, or [NotImplemented]. *)
Inductive value :=
  | Ref (a : addr)
  | NotImplemented.

Section Store.
Context {V : Type}.

(** A table object: its class, [self.index], [self.columns],
    [self.distr] where the class sets it, and its array-valued
    attributes by name. *)
Record table := {
  cls : klass;
  index : list label;
  columns : list label;
  distr : option (tfd.distribution V);
  attrs : gmap string (ndarray V);
}.

(** The store of table objects, and what [print] has written. *)
Record world := {
  heap : list table;
  stdout : list (gmap string (ndarray V));
}.

Definition M (A : Type) : Type := world → result A * world.

#[global] Instance M_ret : MRet M := λ A a w, (Ok a, w).
#[global] Instance M_bind : MBind M := λ A B f m w,
  match m w with
  | (Ok a, w') => f a w'
  | (Raise e, w') => (Raise e, w')
  end.

Definition lift {A} (r : result A) : M A := λ w, (r, w).
Definition raise {A} (e : exn) : M A := lift (Raise e).

(** Creating an object puts it at a fresh address. *)
Definition new (t : table) : M value := λ w,
  (Ok (Ref (length (heap w))),
   {| heap := heap w ++ [t]; stdout := stdout w |}).

(** The object a reference points at.  Python has no dangling
    references; an address outside the store is an error of its own. *)
Definition deref (a : addr) : M table := λ w,
  match heap w !! a with
  | Some t => (Ok t, w)
  | None => (Raise ReferenceError, w)
  end.

Definition print (d : gmap string (ndarray V)) : M unit := λ w,
  (Ok (), {| heap := heap w; stdout := stdout w ++ [d] |}).

(** [isinstance(v, c)]. *)
Definition isinstance (w : world) (v : value) (c : klass) : bool :=
  match v with
  | Ref a => from_option (λ t, issubclass (cls t) c) false (heap w !! a)
  | NotImplemented => false
  end.

End Store.
Arguments table V : clear implicits.
Arguments world V : clear implicits.
Arguments M V A : clear implicits.

(** ** base.py *)

(** The bound method [_loc] or [_iloc] of a table: keyword arguments
    [rowidx] and [colidx], each [None] or a selector. *)
Definition bound_method (V A : Type) : Type :=
  option (selector A) → option (selector A) → M V value.

Module BaseProba.
Section Methods.
Context {V : Type}.

Definition _loc (self : table V) : bound_method V label :=
  λ rowidx colidx, mret NotImplemented.

Definition _iloc (self : table V) : bound_method V Z :=
  λ rowidx colidx, mret NotImplemented.

Definition shape (self : table V) : nat * nat :=
  (length (index self), length (columns self)).

End Methods.
End BaseProba.

Module _BaseTFProba.
Section Methods.
Context {V : Type}.

Definition reserved_names : list string :=
  ["validate_args"; "allow_nan_stats"; "name"].

(** The body of the loop of [_subset_params], for one array. *)
Definition subset_array (rowidx colidx : option (selector Z))
    (arr : ndarray V) : result (ndarray V) :=
  if decide (length (np.shape arr) = 1%nat) then
    match rowidx with
    | Some r => getitem arr r
    | None => Ok arr
    end
  else
    arr ← match rowidx with
          | Some r => getitem arr r
          | None => Ok arr
          end;
    match colidx with
    | Some c => getitem_cols arr c
    | None => Ok arr
    end.

(** [self.distr], for the attribute accesses [self.distr.parameters]
    and [type(self.distr)]. *)
Definition get_distr (self : table V) : result (tfd.distribution V) :=
  match distr self with
  | Some d => Ok d
  | None => Raise AttributeError
  end.

(** The loop runs over a Python set, in no specified order; here it
    runs in the order of [set_fold].  The parameters are kept as arrays,
    so [np.array] of a parameter is the parameter. *)
Definition _subset_params (self : table V)
    (rowidx colidx : option (selector Z)) : result (gmap string (ndarray V)) :=
  d ← get_distr self;
  let paramnames : gset string :=
    dom (tfd.parameters d) ∖ list_to_set reserved_names in
  set_fold (λ param (acc : result (gmap string (ndarray V))),
              subset_param_dict ← acc;
              arr ← from_option Ok (Raise KeyError) (tfd.parameters d !! param);
              arr ← subset_array rowidx colidx arr;
              Ok (<[param := arr]> subset_param_dict))
           (Ok ∅) paramnames.

Definition subset_not_none (idx : list label) (subs : option (selector Z))
    : result (list label) :=
  match subs with
  | Some subs => pd.take idx subs
  | None => Ok idx
  end.

Definition _iloc (self : table V) : bound_method V Z :=
  λ rowidx colidx,
  distr_type ← lift (d ← get_distr self; Ok (tfd.type d));
  subset_params ← lift (_subset_params self rowidx colidx);
  _ ← print subset_params;
  distr_subset ← lift (tfd.call distr_type subset_params);
  index_subset ← lift (subset_not_none (index self) rowidx);
  columns_subset ← lift (subset_not_none (columns self) colidx);
  new {| cls := C_BaseTFProba;
         index := index_subset;
         columns := columns_subset;
         distr := Some distr_subset;
         attrs := ∅ |}.

Definition _loc (self : table V) : bound_method V label :=
  λ rowidx colidx,
  row_iloc ← lift match rowidx with
                  | Some rowidx =>
                      js ← pd.get_indexer_for (index self) rowidx;
                      Ok (Some (ListLike js))
                  | None => Ok None
                  end;
  col_iloc ← lift match colidx with
                  | Some colidx =>
                      js ← pd.get_indexer_for (columns self) colidx;
                      Ok (Some (ListLike js))
                  | None => Ok None
                  end;
  _iloc self row_iloc col_iloc.

End Methods.
End _BaseTFProba.

(** An indexing key: one selector, or a tuple of selectors ([t.loc[r, c]]
    passes the tuple [(r, c)]). *)
Inductive key (A : Type) :=
  | Single (k : selector A)
  | Tuple (ks : list (selector A)).
Arguments Single {A} k.
Arguments Tuple {A} ks.

(** The method names an [_Indexer] is made with; the name fixes what the
    selectors hold, labels for ["_loc"] and positions for ["_iloc"]. *)
Inductive method_name : Type → Type :=
  | name_loc : method_name label      (* "_loc" *)
  | name_iloc : method_name Z.        (* "_iloc" *)

Section Dispatch.
Context {V : Type}.

(** The method a class provides under a name: [_BaseTFProba] overrides
    both methods of [BaseProba], the two [Normal] classes override
    neither. *)
Definition method_of {A} (c : klass) (m : method_name A)
    : table V → bound_method V A :=
  match m with
  | name_loc =>
      match c with
      | C_BaseProba | C_Normal => BaseProba._loc
      | C_BaseTFProba | C_tfd_Normal => _BaseTFProba._loc
      end
  | name_iloc =>
      match c with
      | C_BaseProba | C_Normal => BaseProba._iloc
      | C_BaseTFProba | C_tfd_Normal => _BaseTFProba._iloc
      end
  end.

(** [getattr(ref, method)]: the method, bound to the object. *)
Definition getattr {A} (ref : addr) (m : method_name A)
    : M V (bound_method V A) :=
  self ← deref ref; mret (method_of (cls self) m self).

End Dispatch.

Module _Indexer.
Section Methods.
Context {V A : Type}.

Record t := {
  ref : addr;
  method : method_name A;
}.

Definition is_noneslice (obj : selector A) : bool :=
  match obj with
  | Slice start stop step =>
      bool_decide (start = None) && bool_decide (stop = None)
      && bool_decide (step = None)
  | _ => false
  end.

Definition __getitem__ (self : t) (key : key A) : M V value :=
  let ref := ref self in
  indexer ← getattr ref (method self);
  match key with
  | Tuple [rows; cols] =>
      if is_noneslice rows && is_noneslice cols then mret (Ref ref)
      else if is_noneslice cols then indexer (Some rows) None
      else if is_noneslice rows then indexer None (Some cols)
      else indexer (Some rows) (Some cols)
  | Tuple _ =>
      raise (ValueError
        "there should be one or two keys when calling .loc, e.g., mydist[key], or mydist[key1, key2]")
  | Single key => indexer (Some key) None
  end.

End Methods.
Arguments t A : clear implicits.
End _Indexer.

(** The properties [BaseProba.loc] and [BaseProba.iloc]. *)
Definition loc (self : addr) : _Indexer.t label :=
  {| _Indexer.ref := self; _Indexer.method := name_loc |}.

Definition iloc (self : addr) : _Indexer.t Z :=
  {| _Indexer.ref := self; _Indexer.method := name_iloc |}.

(** ** normal.py *)

Module Normal.
Section Methods.
Context {V : Type}.

Definition _get_bc_params (mu sigma : ndarray V)
    : result (ndarray V * ndarray V) :=
  broadcast_arrays mu sigma.

Definition __init__ (mu sigma : ndarray V)
    (index columns : option (list label)) : M V value :=
  bc ← lift (_get_bc_params mu sigma);
  let _mu := bc.1 in
  let _sigma := bc.2 in
  let shape := np.shape _mu in
  index ← lift match index with
               | None => n ← item shape 0; Ok (pd.RangeIndex n)
               | Some index => Ok index
               end;
  columns ← lift match columns with
                 | None => n ← item shape 1; Ok (pd.RangeIndex n)
                 | Some columns => Ok columns
                 end;
  new {| cls := C_Normal;
         index := index;
         columns := columns;
         distr := None;
         attrs := {[ "mu" := mu; "sigma" := sigma;
                     "_mu" := _mu; "_sigma" := _sigma ]} |}.

End Methods.
End Normal.

(** ** tfd.py *)

Module tfd_Normal.
Section Methods.
Context {V : Type} `{!PyCell V}.

Definition __init__ (mean sd : ndarray V)
    (index columns : option (list label)) : M V value :=
  distr ← lift (tfd.call tfd.Normal {[ "loc" := mean; "scale" := sd ]});
  index ← lift match index with
               | None => s ← tfd.batch_shape distr; n ← item s 0;
                         Ok (pd.RangeIndex n)
               | Some index => Ok index
               end;
  columns ← lift match columns with
                 | None => s ← tfd.batch_shape distr; n ← item s 1;
                           Ok (pd.RangeIndex n)
                 | Some columns => Ok columns
                 end;
  new {| cls := C_tfd_Normal;
         index := index;
         columns := columns;
         distr := Some distr;
         attrs := {[ "mean" := mean; "sd" := sd ]} |}.

End Methods.
End tfd_Normal.

(** ** Reading results *)

Section Reading.
Context {V : Type}.

(** The table a returned value refers to. *)
Definition get_table (w : world V) (v : value) : option (table V) :=
  match v with
  | Ref a => heap w !! a
  | NotImplemented => None
  end.

(** The parameter dictionary of a table's distribution. *)
Definition params (t : table V) : gmap string (ndarray V) :=
  from_option tfd.parameters ∅ (distr t).

(** An array of rank 2 has the shape of the table. *)
Definition has_table_shape (t : table V) (a : ndarray V) : Prop :=
  length (np.shape a) = 2%nat →
  np.shape a = [length (index t); length (columns t)].

(** The shape invariant of a table: its parameter arrays of rank 2 have
    its shape.  The parameter arrays are the broadcast arrays [_mu] and
    [_sigma] of a [normal.Normal], and the parameters of the distribution
    under the names that are not reserved. *)
Definition shape_invariant (t : table V) : Prop :=
  (∀ name a, name ∈ ["_mu"; "_sigma"] → attrs t !! name = Some a →
             has_table_shape t a) ∧
  (∀ k a, k ∉ _BaseTFProba.reserved_names → params t !! k = Some a →
          has_table_shape t a).

End Reading.

(** ** A concrete cell type and a concrete table *)

Inductive pyscalar :=
  | PyInt (z : Z)
  | PyBool (b : bool)
  | PyStr (s : string).

#[global] Instance pyscalar_cell : PyCell pyscalar :=
  {| of_bool := PyBool; of_str := PyStr |}.

(** A rank-2 array of integers, from its rows. *)
Definition ints (rows : list (list Z)) : ndarray pyscalar :=
  Arr2 (from_option length 0%nat (head rows)) (map (map PyInt) rows).

Definition empty_world : world pyscalar := {| heap := []; stdout := [] |}.

(** The table of the test and of the docstring of [normal.Normal], with
    the spread written out as an array:
    [Normal(mean=[[0, 1], [2, 3], [4, 5]], sd=[[1, 1], [1, 1], [1, 1]])]. *)
Definition example_mean : ndarray pyscalar := ints [[0; 1]; [2; 3]; [4; 5]].
Definition example_sd : ndarray pyscalar := ints [[1; 1]; [1; 1]; [1; 1]].

Definition example_table : table pyscalar :=
  {| cls := C_tfd_Normal;
     index := [LInt 0; LInt 1; LInt 2];
     columns := [LInt 0; LInt 1];
     distr := Some {| tfd.type := tfd.Normal;
                      tfd.parameters :=
                        {[ "loc" := example_mean; "scale" := example_sd ]}
                        ∪ tfd.defaults tfd.Normal |};
     attrs := {[ "mean" := example_mean; "sd" := example_sd ]} |}.

Definition example_world : world pyscalar :=
  {| heap := [example_table]; stdout := [] |}.

(** A table with a rank-1 spread, one value per row:
    [Normal(mean=[[0, 1], [2, 3]], sd=[7, 8])]. *)
Definition example_distr_1d : tfd.distribution pyscalar :=
  {| tfd.type := tfd.Normal;
     tfd.parameters :=
       {[ "loc" := ints [[0; 1]; [2; 3]]; "scale" := Arr1 [PyInt 7; PyInt 8] ]}
       ∪ tfd.defaults tfd.Normal |}.

Definition example_table_1d : table pyscalar :=
  {| cls := C_tfd_Normal;
     index := [LInt 0; LInt 1];
     columns := [LInt 0; LInt 1];
     distr := Some example_distr_1d;
     attrs := {[ "mean" := ints [[0; 1]; [2; 3]];
                 "sd" := Arr1 [PyInt 7; PyInt 8] ]} |}.

(** ** Two ways to select rows and columns by position *)

Section Programs.
Context {V : Type}.



End Programs.

(** ** Notions for the statements *)

Section Notions.
Context {V : Type}.
Implicit Types (r c : option (selector Z)) (d : tfd.distribution V).

(** The reserved names, as a set. *)
Definition reserved : gset string :=
  list_to_set _BaseTFProba.reserved_names.

(** Folding a fallible function over a set of names into a dictionary,
    as the loop of [_subset_params] does. *)
Definition collect {B} (g : string → result B) (X : gset string)
    : result (gmap string B) :=
  set_fold (λ k (acc : result (gmap string B)),
              m ← acc; v ← g k; Ok (<[k := v]> m))
           (Ok ∅) X.

(** One turn of the loop of [_subset_params]. *)
Definition subset_entry r c d (k : string) : result (ndarray V) :=
  arr ← from_option Ok (Raise KeyError) (tfd.parameters d !! k);
  _BaseTFProba.subset_array r c arr.

(** The table [_iloc] makes from the pieces it computes. *)
Definition subset_table (d' : tfd.distribution V) (rows cols : list label)
    : table V :=
  {| cls := C_BaseTFProba; index := rows; columns := cols;
     distr := Some d'; attrs := ∅ |}.

(** The distribution object is one its class makes: the result of calling
    the class with some keyword arguments. *)
Definition made_by_its_class d : Prop :=
  ∃ kwargs, tfd.call (tfd.type d) kwargs = Ok d.

(** The length of the axis a selector leaves, when it is a list-like or
    [None]. *)
Definition selected_length (r : option (selector Z)) (n : nat) : nat :=
  match r with
  | Some (ListLike js) => length js
  | _ => n
  end.

End Notions.

(** ** pandas frames *)

Section Frames.
Context {V : Type}.

(** A [pd.DataFrame]: row labels, column labels and a rank-2 array of
    values. *)
Record DataFrame := {
  df_index : list label;
  df_columns : list label;
  df_values : ndarray V;
}.

Definition shape_text (n m : nat) : string :=
  "(" +:+ pretty n +:+ ", " +:+ pretty m +:+ ")".

(** [pd.DataFrame(data, index=index, columns=columns)] for an array: an
    array of rank 1 is taken as one column, an array of rank 0 is
    refused, and the shape has to be the one the labels imply. *)
Definition new_DataFrame (data : ndarray V) (index columns : list label)
    : result DataFrame :=
  match data with
  | Arr0 _ => Raise (ValueError "Must pass 2-d input. shape=()")
  | Arr1 xs =>
      if decide (length xs = length index ∧ 1%nat = length columns)
      then Ok {| df_index := index; df_columns := columns;
                 df_values := Arr2 1 (map (λ x, [x]) xs) |}
      else Raise (ValueError
             ("Shape of passed values is " +:+ shape_text (length xs) 1
              +:+ ", indices imply "
              +:+ shape_text (length index) (length columns)))
  | Arr2 ncols rows =>
      if decide (length rows = length index ∧ ncols = length columns)
      then Ok {| df_index := index; df_columns := columns;
                 df_values := Arr2 ncols rows |}
      else Raise (ValueError
             ("Shape of passed values is " +:+ shape_text (length rows) ncols
              +:+ ", indices imply "
              +:+ shape_text (length index) (length columns)))
  end.

(** [obj.name] for an array-valued attribute of what a selection
    returned; [NotImplemented] has no attributes. *)
Definition get_attr (obj : value) (name : string) : M V (ndarray V) :=
  match obj with
  | Ref a =>
      t ← deref a;
      lift (from_option Ok (Raise AttributeError) (attrs t !! name))
  | NotImplemented => raise AttributeError
  end.

End Frames.
Arguments DataFrame V : clear implicits.

(** ** normal.py, the functions of the distribution *)

Module Normal_functions.
Section Methods.
Context {V : Type}.

(** The arithmetic is numpy's and scipy's: each formula is a function of
    [x.values], [d.mu] and [d.sigma], and [** 2] on a frame is a function
    of a cell. *)
Variables pdf_arr log_pdf_arr cdf_arr ppf_arr :
  ndarray V → ndarray V → ndarray V → result (ndarray V).
Variable square : V → V.

(** [np.random.uniform]: the cell at row [i] and column [j] of the array
    the [k]-th call returns. *)
Variable uniform : nat → nat → nat → V.

(** [pd.concat(objs, keys=range(n))], with whatever it returns. *)
Context {Stacked : Type}.
Variable concat : list (DataFrame V) → list Z → result Stacked.

Definition mean (self : addr) : M V (DataFrame V) :=
  self ← deref self;
  mean_arr ← lift (from_option Ok (Raise AttributeError) (attrs self !! "_mu"));
  lift (new_DataFrame mean_arr (index self) (columns self)).

Definition square_values (a : ndarray V) : ndarray V :=
  match a with
  | Arr0 x => Arr0 (square x)
  | Arr1 xs => Arr1 (map square xs)
  | Arr2 ncols rows => Arr2 ncols (map (map square) rows)
  end.

Definition var (self : addr) : M V (DataFrame V) :=
  self ← deref self;
  sd_arr ← lift (from_option Ok (Raise AttributeError) (attrs self !! "_sigma"));
  df ← lift (new_DataFrame sd_arr (index self) (columns self));
  mret {| df_index := df_index df; df_columns := df_columns df;
          df_values := square_values (df_values df) |}.

(** The common course of [pdf], [log_pdf], [cdf] and [ppf]: select by the
    labels of [x], read [d.mu] and [d.sigma], compute, and wrap the
    result in a frame with the labels of [x]. *)
Definition entrywise
    (formula : ndarray V → ndarray V → ndarray V → result (ndarray V))
    (self : addr) (x : DataFrame V) : M V (DataFrame V) :=
  d ← _Indexer.__getitem__ (loc self)
         (Tuple [ListLike (df_index x); ListLike (df_columns x)]);
  mu ← get_attr d "mu";
  sigma ← get_attr d "sigma";
  arr ← lift (formula (df_values x) mu sigma);
  lift (new_DataFrame arr (df_index x) (df_columns x)).

Definition pdf := entrywise pdf_arr.
Definition log_pdf := entrywise log_pdf_arr.
Definition cdf := entrywise cdf_arr.
Definition ppf := entrywise ppf_arr.

(** The [k]-th call of [gen_unif] inside [sample]. *)
Definition gen_unif (self : addr) (k : nat) : M V (DataFrame V) :=
  self ← deref self;
  let '(n, m) := BaseProba.shape self in
  let np_unif := Arr2 m (map (λ i, map (uniform k i) (seq 0 m)) (seq 0 n)) in
  lift (new_DataFrame np_unif (index self) (columns self)).

Definition sample (self : addr) (n_samples : option Z)
    : M V (DataFrame V + Stacked) :=
  match n_samples with
  | None => u ← gen_unif self 0; df ← ppf self u; mret (inl df)
  | Some n =>
      pd_smpl ← mapM (λ k, u ← gen_unif self k; ppf self u)
                     (seq 0 (Z.to_nat n));
      df_spl ← lift (concat pd_smpl (seqZ 0 n));
      mret (inr df_spl)
  end.

End Methods.
End Normal_functions.

(** ** More notions for the statements *)

Section MoreNotions.
Context {V : Type}.

(** The labels of a selector stand in the index at the positions of the
    other selector; [None] goes with [None]. *)
Inductive at_positions (idx : list label)
    : option (selector label) → option (selector Z) → Prop :=
  | at_positions_None : at_positions idx None None
  | at_positions_list (ls : list label) (ps : list nat) :
      Forall2 (λ l p, idx !! p = Some l) ls ps →
      at_positions idx (Some (ListLike ls)) (Some (ListLike (Z.of_nat <$> ps))).

(** A selector is [None] or a list-like. *)
Definition list_or_none {A} (r : option (selector A)) : Prop :=
  match r with
  | None | Some (ListLike _) => True
  | _ => False
  end.






(** What a method leaves behind: a fresh object at the end of the store
    when it returns a table, the store as it was otherwise. *)
Definition method_outcome (w : world V) (run : result value * world V) : Prop :=
  match run with
  | (Ok (Ref a), w') =>
      a = length (heap w) ∧ ∃ t', heap w' = heap w ++ [t']
  | (Ok NotImplemented, w') => w' = w
  | (Raise _, w') => heap w' = heap w
  end.

(** The table of the docstring of [normal.Normal]:
    [Normal(mu=[[0, 1], [2, 3], [4, 5]], sigma=1)]. *)
Definition example_Normal : table pyscalar :=
  {| cls := C_Normal;
     index := [LInt 0; LInt 1; LInt 2];
     columns := [LInt 0; LInt 1];
     distr := None;
     attrs := {[ "mu" := example_mean; "sigma" := Arr0 (PyInt 1);
                 "_mu" := example_mean; "_sigma" := example_sd ]} |}.

Definition example_Normal_world : world pyscalar :=
  {| heap := [example_Normal]; stdout := [] |}.

(** A frame of query points with the labels of the example tables. *)
Definition example_frame : DataFrame pyscalar :=
  {| df_index := [LInt 0; LInt 1; LInt 2];
     df_columns := [LInt 0; LInt 1];
     df_values := ints [[0; 0]; [0; 0]; [0; 0]] |}.

End MoreNotions.

(** * Properties *)

(** ** Folding a fallible function over a set of names *)

Section FoldNames.
Context {B : Type}.
Implicit Types (g : string → result B) (X : gset string) (m : gmap string B).

Lemma collect_Ok g X m :
  collect g X = Ok m →
  dom m = X ∧ ∀ k, k ∈ X → ∃ v, g k = Ok v ∧ m !! k = Some v.
Proof.
  unfold collect. revert m.
  apply (set_fold_ind_L (λ r X, ∀ m, r = Ok m →
    dom m = X ∧ ∀ k, k ∈ X → ∃ v, g k = Ok v ∧ m !! k = Some v)).
  - intros m [= <-]. split; [apply dom_empty_L | set_solver].
  - intros x Y r Hx IH m Hm.
    destruct r as [m0|e]; simpl in Hm; [|done].
    destruct (g x) as [v|e] eqn:Hg; simpl in Hm; [|done].
    injection Hm as <-. destruct (IH m0 eq_refl) as [Hdom Hall].
    split; [rewrite dom_insert_L; by rewrite Hdom|].
    intros k Hk. destruct (decide (k = x)) as [->|Hne].
    + exists v. by rewrite lookup_insert_eq.
    + rewrite lookup_insert_ne by done. apply Hall.
      apply elem_of_union in Hk as [Hk%elem_of_singleton|Hk]; done.
Qed.

Lemma collect_Raise g X e :
  collect g X = Raise e → ∃ k, k ∈ X ∧ g k = Raise e.
Proof.
  unfold collect.
  apply (set_fold_ind_L (λ r X, r = Raise e → ∃ k, k ∈ X ∧ g k = Raise e)).
  - done.
  - intros x Y r Hx IH Hr.
    destruct r as [m0|e0]; simpl in Hr.
    + destruct (g x) as [v|e1] eqn:Hg; simpl in Hr; [done|].
      injection Hr as ->. exists x. split; [set_solver | done].
    + destruct (IH Hr) as (k & Hk & Hgk). exists k. split; [set_solver | done].
Qed.



End FoldNames.

(** ** What [_subset_params] and [_iloc] compute *)

Section Subsetting.
Context {V : Type}.
Implicit Types (self : table V) (r c : option (selector Z)).
Implicit Types (d : tfd.distribution V) (sp : gmap string (ndarray V)).

Lemma subset_params_collect self r c d :
  _BaseTFProba.get_distr self = Ok d →
  _BaseTFProba._subset_params self r c
  = collect (subset_entry r c d) (dom (tfd.parameters d) ∖ reserved).
Proof.
  intros Hd. unfold _BaseTFProba._subset_params. rewrite Hd. simpl.
  unfold collect, set_fold. simpl. apply foldr_ext; [|done..].
  intros k [m|e]; simpl; [|done]. unfold subset_entry.
  destruct (tfd.parameters d !! k) as [a|]; simpl; [|done].
  by destruct (_BaseTFProba.subset_array r c a).
Qed.

Lemma subset_params_Ok self r c d sp :
  _BaseTFProba.get_distr self = Ok d →
  _BaseTFProba._subset_params self r c = Ok sp →
  dom sp = dom (tfd.parameters d) ∖ reserved ∧
  ∀ k a, k ∉ reserved → tfd.parameters d !! k = Some a →
    ∃ a', _BaseTFProba.subset_array r c a = Ok a' ∧ sp !! k = Some a'.
Proof.
  intros Hd Hsp. rewrite (subset_params_collect _ _ _ _ Hd) in Hsp.
  apply collect_Ok in Hsp as [Hdom Hall]. split; [done|].
  intros k a Hk Ha.
  destruct (Hall k) as (v & Hv & Hl).
  { apply elem_of_difference. split; [|done]. apply elem_of_dom. by exists a. }
  unfold subset_entry in Hv. rewrite Ha in Hv. simpl in Hv. exists v. done.
Qed.

Lemma iloc_Ok self r c w v w' :
  _BaseTFProba._iloc self r c w = (Ok v, w') →
  ∃ d sp d' rows cols,
    _BaseTFProba.get_distr self = Ok d ∧
    _BaseTFProba._subset_params self r c = Ok sp ∧
    tfd.call (tfd.type d) sp = Ok d' ∧
    _BaseTFProba.subset_not_none (index self) r = Ok rows ∧
    _BaseTFProba.subset_not_none (columns self) c = Ok cols ∧
    v = Ref (length (heap w)) ∧
    w' = {| heap := heap w ++ [subset_table d' rows cols];
            stdout := stdout w ++ [sp] |}.
Proof.
  intros Hrun.
  destruct (_BaseTFProba.get_distr self) as [d|e] eqn:Hd;
    [|by (unfold _BaseTFProba._iloc, mbind, M_bind, lift in Hrun;
          rewrite Hd in Hrun)].
  destruct (_BaseTFProba._subset_params self r c) as [sp|e] eqn:Hsp;
    [|by (unfold _BaseTFProba._iloc, mbind, M_bind, lift in Hrun;
          rewrite Hd, Hsp in Hrun)].
  destruct (tfd.call (tfd.type d) sp) as [d'|e] eqn:Hc;
    [|by (unfold _BaseTFProba._iloc, mbind, M_bind, lift, print in Hrun;
          rewrite Hd, Hsp in Hrun; simpl in Hrun; rewrite Hc in Hrun)].
  destruct (_BaseTFProba.subset_not_none (index self) r) as [rows|e] eqn:Hr;
    [|by (unfold _BaseTFProba._iloc, mbind, M_bind, lift, print in Hrun;
          rewrite Hd, Hsp in Hrun; simpl in Hrun; rewrite Hc in Hrun;
          simpl in Hrun; rewrite Hr in Hrun)].
  destruct (_BaseTFProba.subset_not_none (columns self) c) as [cols|e] eqn:Hcs;
    [|by (unfold _BaseTFProba._iloc, mbind, M_bind, lift, print in Hrun;
          rewrite Hd, Hsp in Hrun; simpl in Hrun; rewrite Hc in Hrun;
          simpl in Hrun; rewrite Hr, Hcs in Hrun)].
  unfold _BaseTFProba._iloc, mbind, M_bind, lift, print, new in Hrun.
  rewrite Hd, Hsp in Hrun; simpl in Hrun; rewrite Hc in Hrun; simpl in Hrun.
  rewrite Hr, Hcs in Hrun. injection Hrun as <- <-.
  exists d, sp, d', rows, cols. repeat split; assumption || reflexivity.
Qed.


Lemma get_table_new (w : world V) (t : table V) out :
  get_table {| heap := heap w ++ [t]; stdout := out |} (Ref (length (heap w)))
  = Some t.
Proof. simpl. by apply list_lookup_middle. Qed.

End Subsetting.

(** ** The indexer *)

Section Indexing.
Context {V A : Type}.
Implicit Types (w : world V) (t : table V) (m : method_name A).
Implicit Types (ref : addr) (k rows cols : selector A).

Lemma getattr_run ref m w t :
  heap w !! ref = Some t →
  getattr ref m w = (Ok (method_of (cls t) m t), w).
Proof.
  intros Ht. unfold getattr, mbind, M_bind, deref. by rewrite Ht.
Qed.

Lemma is_noneslice_true (obj : selector A) :
  _Indexer.is_noneslice obj = true ↔ obj = Slice None None None.
Proof.
  split; [|by intros ->].
  destruct obj as [[?|] [?|] [?|]| |]; simpl; done.
Qed.

Lemma is_noneslice_false (obj : selector A) :
  _Indexer.is_noneslice obj = false ↔ obj ≠ Slice None None None.
Proof.
  rewrite <- is_noneslice_true. by destruct (_Indexer.is_noneslice obj).
Qed.

(** A tuple key of any length but two raises the [ValueError], and
    nothing else happens. *)
Lemma getitem_bad_arity ref m w t (ks : list (selector A)) :
  heap w !! ref = Some t →
  length ks ≠ 2%nat →
  _Indexer.__getitem__ {| _Indexer.ref := ref; _Indexer.method := m |} (Tuple ks) w
  = (Raise (ValueError
      "there should be one or two keys when calling .loc, e.g., mydist[key], or mydist[key1, key2]"),
     w).
Proof.
  intros Ht Hlen. unfold _Indexer.__getitem__, mbind, M_bind. simpl.
  rewrite (getattr_run _ _ _ _ Ht).
  destruct ks as [|k1 [|k2 [|k3 ks]]]; done.
Qed.

Lemma getitem_single ref m w t k :
  heap w !! ref = Some t →
  _Indexer.__getitem__ {| _Indexer.ref := ref; _Indexer.method := m |} (Single k) w
  = method_of (cls t) m t (Some k) None w.
Proof.
  intros Ht. unfold _Indexer.__getitem__, mbind, M_bind. simpl.
  by rewrite (getattr_run _ _ _ _ Ht).
Qed.

Lemma getitem_pair ref m w t rows cols :
  heap w !! ref = Some t →
  _Indexer.__getitem__ {| _Indexer.ref := ref; _Indexer.method := m |}
    (Tuple [rows; cols]) w
  = if _Indexer.is_noneslice rows && _Indexer.is_noneslice cols
    then (Ok (Ref ref), w)
    else method_of (cls t) m t
           (if _Indexer.is_noneslice rows then None else Some rows)
           (if _Indexer.is_noneslice cols then None else Some cols) w.
Proof.
  intros Ht. unfold _Indexer.__getitem__, mbind, M_bind. simpl.
  rewrite (getattr_run _ _ _ _ Ht).
  by destruct (_Indexer.is_noneslice rows), (_Indexer.is_noneslice cols).
Qed.

End Indexing.

(** ** Claims about the indexer *)

(** C3.  On every table, the key [(:, :)] returns the table itself through
    either view: the value returned is the reference the view was made
    from, and the store is as it was, so no object was created and the
    table's labels and parameters are untouched. *)
Theorem getitem_full_slices_same_instance {V} (ref : addr) (w : world V) (t : table V) :
  heap w !! ref = Some t →
  _Indexer.__getitem__ (loc ref)
    (Tuple [Slice None None None; Slice None None None]) w = (Ok (Ref ref), w) ∧
  _Indexer.__getitem__ (iloc ref)
    (Tuple [Slice None None None; Slice None None None]) w = (Ok (Ref ref), w) ∧
  get_table w (Ref ref) = Some t.
Proof.
  intros Ht. unfold _Indexer.__getitem__, mbind, M_bind, loc, iloc. simpl.
  rewrite !(getattr_run _ _ _ _ Ht). done.
Qed.

Lemma getitem_full_slices_same_instance_witness :
  heap example_world !! 0%nat = Some example_table ∧
  _Indexer.__getitem__ (loc 0%nat)
    (Tuple [Slice None None None; Slice None None None]) example_world
  = (Ok (Ref 0%nat), example_world).
Proof.
  split; [reflexivity|].
  apply (getitem_full_slices_same_instance 0%nat example_world example_table).
  reflexivity.
Defined.

(** C8.  Through a view made with either method name: a key that is not
    a tuple goes to the method as [rowidx], with [colidx=None]; in a pair
    with the full slice in exactly one place, that place is passed as
    [None] and the other component is passed on as it is. *)
Theorem getitem_single_key_and_one_full_slice {V A}
    (ref : addr) (m : method_name A) (w : world V) (t : table V) :
  heap w !! ref = Some t →
  let view := {| _Indexer.ref := ref; _Indexer.method := m |} in
  let indexer := method_of (cls t) m t in
  (∀ k, _Indexer.__getitem__ view (Single k) w = indexer (Some k) None w) ∧
  (∀ rows, rows ≠ Slice None None None →
     _Indexer.__getitem__ view (Tuple [rows; Slice None None None]) w
     = indexer (Some rows) None w) ∧
  (∀ cols, cols ≠ Slice None None None →
     _Indexer.__getitem__ view (Tuple [Slice None None None; cols]) w
     = indexer None (Some cols) w).
Proof.
  intros Ht view indexer. subst view indexer.
  unfold _Indexer.__getitem__, mbind, M_bind. simpl.
  rewrite (getattr_run _ _ _ _ Ht). split; [done|]. split.
  - intros rows Hrows%is_noneslice_false. by rewrite Hrows.
  - intros cols Hcols%is_noneslice_false. rewrite Hcols. simpl. done.
Qed.

Lemma getitem_single_key_and_one_full_slice_witness :
  heap example_world !! 0%nat = Some example_table ∧
  _Indexer.__getitem__ (iloc 0%nat) (Single (ListLike [1])) example_world
  = _BaseTFProba._iloc example_table (Some (ListLike [1])) None example_world.
Proof.
  split; [reflexivity|].
  exact (proj1 (getitem_single_key_and_one_full_slice 0%nat name_iloc
                  example_world example_table eq_refl) (ListLike [1])).
Defined.

(** C9.  A tuple key of more than two components, through a view made
    with either method name, raises the [ValueError] whose message asks
    for one or two keys; the store and the output are as before, so no
    selection took place. *)
Theorem getitem_more_than_two_keys {V A}
    (ref : addr) (m : method_name A) (w : world V) (t : table V)
    (ks : list (selector A)) :
  heap w !! ref = Some t →
  (2 < length ks)%nat →
  _Indexer.__getitem__ {| _Indexer.ref := ref; _Indexer.method := m |} (Tuple ks) w
  = (Raise (ValueError
      "there should be one or two keys when calling .loc, e.g., mydist[key], or mydist[key1, key2]"),
     w).
Proof.
  intros Ht Hlen. apply (getitem_bad_arity _ _ _ _ _ Ht). lia.
Qed.

Lemma getitem_more_than_two_keys_witness :
  heap example_world !! 0%nat = Some example_table ∧
  (2 < length [ListLike [LInt 0]; ListLike [LInt 1]; ListLike [LInt 0]])%nat ∧
  _Indexer.__getitem__ (loc 0%nat)
    (Tuple [ListLike [LInt 0]; ListLike [LInt 1]; ListLike [LInt 0]]) example_world
  = (Raise (ValueError
      "there should be one or two keys when calling .loc, e.g., mydist[key], or mydist[key1, key2]"),
     example_world).
Proof.
  split; [reflexivity|]. split; [simpl; lia|].
  apply (getitem_more_than_two_keys 0%nat name_loc example_world example_table);
    [reflexivity | simpl; lia].
Defined.

(** C10.  A tuple key of one component raises the same [ValueError] as a
    longer one and leaves the store alone, whatever the component is; so
    does every tuple whose length is not two.  The component alone, not
    in a tuple, is handed to the method as the row selector. *)
Theorem getitem_one_element_tuple {V A}
    (ref : addr) (m : method_name A) (w : world V) (t : table V) :
  heap w !! ref = Some t →
  let view := {| _Indexer.ref := ref; _Indexer.method := m |} in
  let error :=
    Raise (ValueError
      "there should be one or two keys when calling .loc, e.g., mydist[key], or mydist[key1, key2]") in
  (∀ k, _Indexer.__getitem__ view (Tuple [k]) w = (error, w)) ∧
  (∀ ks, length ks ≠ 2%nat → _Indexer.__getitem__ view (Tuple ks) w = (error, w)) ∧
  (∀ k, _Indexer.__getitem__ view (Single k) w
        = method_of (cls t) m t (Some k) None w).
Proof.
  intros Ht view error. subst view error. split; [|split].
  - intros k. by apply (getitem_bad_arity _ _ _ _ _ Ht).
  - intros ks Hks. by apply (getitem_bad_arity _ _ _ _ _ Ht).
  - intros k. unfold _Indexer.__getitem__, mbind, M_bind. simpl.
    by rewrite (getattr_run _ _ _ _ Ht).
Qed.

Lemma getitem_one_element_tuple_witness :
  heap example_world !! 0%nat = Some example_table ∧
  _Indexer.__getitem__ (loc 0%nat) (Tuple [ListLike [LInt 1]]) example_world
  = (Raise (ValueError
      "there should be one or two keys when calling .loc, e.g., mydist[key], or mydist[key1, key2]"),
     example_world).
Proof.
  split; [reflexivity|].
  exact (proj1 (getitem_one_element_tuple 0%nat name_loc example_world
                  example_table eq_refl) (ListLike [LInt 1])).
Defined.

(** ** Claims about label-based selection *)

Section Labels.
Context {V : Type}.

(** A label the index does not hold is looked up as position [-1]. *)
Lemma positions_of_absent (l : label) (idx : list label) (from : nat) :
  l ∉ idx → pd.positions_of l idx from = [].
Proof.
  revert from. induction idx as [|x idx IH]; intros from Hl; [done|].
  simpl. apply not_elem_of_cons in Hl as [Hne Hl].
  destruct (decide (x = l)) as [->|_]; [done|]. by apply IH.
Qed.

Lemma get_indexer_for_absent (l : label) (idx : list label) :
  l ∉ idx → pd.get_indexer_for idx (ListLike [l]) = Ok [-1].
Proof.
  intros Hl. unfold pd.get_indexer_for. simpl.
  by rewrite (positions_of_absent _ _ _ Hl).
Qed.

(** Asking [_loc] for one row label the table does not have is asking
    [_iloc] for row [-1], the last row. *)
Lemma loc_absent_row (self : table V) (l : label) (w : world V) :
  l ∉ index self →
  _BaseTFProba._loc self (Some (ListLike [l])) None w
  = _BaseTFProba._iloc self (Some (ListLike [-1])) None w.
Proof.
  intros Hl. unfold _BaseTFProba._loc, mbind at 1 2, M_bind, lift.
  by rewrite (get_indexer_for_absent _ _ Hl).
Qed.

End Labels.

(** C1.  On the table with row labels [0, 1, 2], [t.loc[[99]]] raises
    nothing: it returns a new table, with the one row label [2] and the
    parameters of the last row. *)
Theorem loc_absent_label_returns_last_row :
  ∃ w',
    _Indexer.__getitem__ (loc 0%nat) (Single (ListLike [LInt 99])) example_world
    = (Ok (Ref 1%nat), w') ∧
    ∃ t', get_table w' (Ref 1%nat) = Some t' ∧
          index t' = [LInt 2] ∧
          columns t' = [LInt 0; LInt 1] ∧
          params t' !! "loc" = Some (ints [[4; 5]]) ∧
          params t' !! "scale" = Some (ints [[1; 1]]).
Proof.
  eexists. split; [vm_compute; reflexivity|].
  eexists. split; [reflexivity|]. repeat split; vm_compute; reflexivity.
Qed.

(** A scalar label is refused before any lookup: [t.loc[99]] is a
    [TypeError]. *)
Example loc_scalar_label_is_refused :
  _Indexer.__getitem__ (loc 0%nat) (Single (Scalar (LInt 99))) example_world
  = (Raise TypeError, example_world).
Proof. reflexivity. Qed.

(** The example table is the one the constructor of [tfd.py] makes. *)
Example example_table_made :
  tfd_Normal.__init__ example_mean example_sd None None empty_world
  = (Ok (Ref 0%nat), example_world).
Proof. vm_compute. reflexivity. Qed.

(** With the spread given as the scalar [1], as the test writes it, the
    parameter [scale] is an array of rank 0, and selecting a row raises an
    [IndexError] when [_subset_params] indexes it. *)
Example scalar_parameter_cannot_be_subset :
  (v ← tfd_Normal.__init__ example_mean (Arr0 (PyInt 1)) None None;
   match v with
   | Ref n => _Indexer.__getitem__ (loc n) (Single (ListLike [LInt 1]))
   | NotImplemented => raise AttributeError
   end) empty_world
  = (Raise IndexError,
     {| heap := [ {| cls := C_tfd_Normal;
                     index := [LInt 0; LInt 1; LInt 2];
                     columns := [LInt 0; LInt 1];
                     distr := Some {| tfd.type := tfd.Normal;
                                      tfd.parameters :=
                                        {[ "loc" := example_mean;
                                           "scale" := Arr0 (PyInt 1) ]}
                                        ∪ tfd.defaults tfd.Normal |};
                     attrs := {[ "mean" := example_mean;
                                 "sd" := Arr0 (PyInt 1) ]} |} ];
        stdout := [] |}).
Proof. vm_compute. reflexivity. Qed.

(** ** Claims about position-based selection *)

Section Positions.
Context {V : Type}.
Implicit Types (self : table V) (r c : option (selector Z)) (w : world V).
Implicit Types (d : tfd.distribution V) (sp : gmap string (ndarray V)).

Lemma elem_of_reserved (k : string) :
  k ∈ reserved ↔ k ∈ _BaseTFProba.reserved_names.
Proof. unfold reserved. apply elem_of_list_to_set. Qed.


(** The parameters of the table [_iloc] returns: the subset dictionary,
    and the class's defaults for the names it lacks. *)
Lemma iloc_params self r c w v w' :
  _BaseTFProba._iloc self r c w = (Ok v, w') →
  ∃ d sp t',
    _BaseTFProba.get_distr self = Ok d ∧
    _BaseTFProba._subset_params self r c = Ok sp ∧
    get_table w' v = Some t' ∧
    params t' = sp ∪ tfd.defaults (tfd.type d) ∧
    _BaseTFProba.subset_not_none (index self) r = Ok (index t') ∧
    _BaseTFProba.subset_not_none (columns self) c = Ok (columns t').
Proof.
  intros (d & sp & d' & rows & cols & Hd & Hsp & Hc & Hr & Hcs & -> & ->)%iloc_Ok.
  exists d, sp, (subset_table d' rows cols).
  split; [done|]. split; [done|]. split; [apply get_table_new|].
  split; [|done]. unfold tfd.call in Hc. case_decide; [|done].
  by injection Hc as <-.
Qed.


(** Entry by entry: what the returned table holds under a name that is
    not reserved. *)
Lemma iloc_entries self r c w v w' :
  _BaseTFProba._iloc self r c w = (Ok v, w') →
  ∃ d sp t',
    _BaseTFProba.get_distr self = Ok d ∧
    _BaseTFProba._subset_params self r c = Ok sp ∧
    get_table w' v = Some t' ∧
    params t' = sp ∪ tfd.defaults (tfd.type d) ∧
    dom sp = dom (tfd.parameters d) ∖ reserved ∧
    (∀ k a, k ∉ _BaseTFProba.reserved_names →
            tfd.parameters d !! k = Some a →
            ∃ a', _BaseTFProba.subset_array r c a = Ok a' ∧
                  sp !! k = Some a' ∧ params t' !! k = Some a').
Proof.
  intros (d & sp & t' & Hd & Hsp & Ht' & Hp & _)%iloc_params.
  destruct (subset_params_Ok _ _ _ _ _ Hd Hsp) as [Hdom Hall].
  exists d, sp, t'. do 5 (split; [done|]).
  intros k a Hk Ha. rewrite <- elem_of_reserved in Hk.
  destruct (Hall k a Hk Ha) as (a' & Ha' & Hl). exists a'.
  split; [done|]. split; [done|]. rewrite Hp. by apply lookup_union_Some_l.
Qed.

End Positions.

(** C2.  The steps of [test_proba_example], on the example table:
    [n.loc[[1]]] returns a table of shape [(1, 2)] holding the second
    row, but the table is a plain [_BaseTFProba]:
    [isinstance(one_row, Normal)] is false, although [n] is a [Normal]. *)
Theorem selection_of_a_Normal_is_not_a_Normal :
  ∃ w' one_row,
    _Indexer.__getitem__ (loc 0%nat) (Single (ListLike [LInt 1])) example_world
    = (Ok one_row, w') ∧
    isinstance example_world (Ref 0%nat) C_tfd_Normal = true ∧
    isinstance w' one_row C_tfd_Normal = false ∧
    ∃ t', get_table w' one_row = Some t' ∧
          cls t' = C_BaseTFProba ∧
          BaseProba.shape t' = (1%nat, 2%nat) ∧
          params t' !! "loc" = Some (ints [[2; 3]]).
Proof.
  eexists _, _. split; [vm_compute; reflexivity|].
  split; [reflexivity|]. split; [reflexivity|].
  eexists. split; [reflexivity|]. repeat split; vm_compute; reflexivity.
Qed.

Section PositionClaims.
Context {V : Type}.
Implicit Types (self : table V) (r c : option (selector Z)) (w : world V).
Implicit Types (d : tfd.distribution V) (sp : gmap string (ndarray V)).



(** C5.  A parameter that is a rank-1 array is indexed by the row
    selector alone, whatever the column selector is: in the table [_iloc]
    returns it is the array indexed by the rows, and the array itself
    when only columns are selected. *)
Theorem one_dimensional_parameter_ignores_columns
    self r c w v w' d (k : string) (xs : list V) :
  _BaseTFProba.get_distr self = Ok d →
  k ∉ _BaseTFProba.reserved_names →
  tfd.parameters d !! k = Some (Arr1 xs) →
  _BaseTFProba._iloc self r c w = (Ok v, w') →
  let by_rows := match r with
                 | Some rows => getitem (Arr1 xs) rows
                 | None => Ok (Arr1 xs)
                 end in
  (∀ c', _BaseTFProba.subset_array r c' (Arr1 xs) = by_rows) ∧
  ∃ t' a', get_table w' v = Some t' ∧
           by_rows = Ok a' ∧
           params t' !! k = Some a' ∧
           (r = None → params t' !! k = Some (Arr1 xs)).
Proof.
  intros Hd Hk Hxs Hrun by_rows. split; [done|].
  destruct (iloc_entries self r c w v w' Hrun)
    as (d0 & sp & t' & Hd0 & Hsp & Ht' & Hp & _ & Hsub).
  rewrite Hd in Hd0. injection Hd0 as <-.
  destruct (Hsub k (Arr1 xs) Hk Hxs) as (a' & Ha' & _ & Hl).
  exists t', a'. split; [done|]. split; [done|]. split; [done|].
  intros ->. subst by_rows. simpl in Ha'. injection Ha' as <-. done.
Qed.

End PositionClaims.


Lemma one_dimensional_parameter_ignores_columns_witness :
  let run := _BaseTFProba._iloc example_table_1d None (Some (ListLike [1]))
               example_world in
  _BaseTFProba.get_distr example_table_1d = Ok example_distr_1d ∧
  ("scale" ∉ _BaseTFProba.reserved_names) ∧
  tfd.parameters example_distr_1d !! "scale" = Some (Arr1 [PyInt 7; PyInt 8]) ∧
  run = (Ok (Ref 1%nat), run.2) ∧
  ∃ t', get_table run.2 (Ref 1%nat) = Some t' ∧
        params t' !! "scale" = Some (Arr1 [PyInt 7; PyInt 8]).
Proof.
  intros run.
  assert ("scale" ∉ _BaseTFProba.reserved_names) as Hk.
  { intros Hin. repeat (apply elem_of_cons in Hin as [Heq|Hin]; [discriminate Heq|]).
    by apply elem_of_nil in Hin. }
  assert (run = (Ok (Ref 1%nat), run.2)) as Hrun by (vm_compute; reflexivity).
  split; [reflexivity|]. split; [exact Hk|]. split; [reflexivity|].
  split; [exact Hrun|].
  destruct (one_dimensional_parameter_ignores_columns example_table_1d
              None (Some (ListLike [1])) example_world _ _ example_distr_1d
              "scale" [PyInt 7; PyInt 8] eq_refl Hk eq_refl Hrun)
    as (_ & t' & a' & Ht' & _ & _ & Hsame).
  exists t'. split; [exact Ht' | exact (Hsame eq_refl)].
Defined.

(** ** Rows first, columns second *)

Section RowsThenColumns.
Context {V : Type}.
Implicit Types (self : table V) (w : world V) (R C : list Z).
Implicit Types (d : tfd.distribution V) (sp : gmap string (ndarray V)).

Lemma made_by_its_class_defaults d :
  made_by_its_class d →
  dom (tfd.defaults (tfd.type d)) ⊆ dom (tfd.parameters d).
Proof.
  intros [kwargs Hc]. unfold tfd.call in Hc. case_decide; [|done].
  injection Hc as <-. simpl. rewrite dom_union_L. apply union_subseteq_r.
Qed.


Lemma call_Ok (ty : tfd.distr_type V) sp d :
  tfd.call ty sp = Ok d →
  d = {| tfd.type := ty; tfd.parameters := sp ∪ tfd.defaults ty |}.
Proof. unfold tfd.call. case_decide; [|done]. by intros [= <-]. Qed.




End RowsThenColumns.



(** ** Shapes *)

Section Shapes.
Context {V : Type}.
Implicit Types (a : ndarray V) (r c : option (selector Z)).

Lemma mapM_Ok_length {A B} (f : A → result B) (l : list A) (k : list B) :
  mapM f l = Ok k → length k = length l.
Proof.
  revert k. induction l as [|x l IH]; intros k; simpl.
  - by intros [= <-].
  - destruct (f x) as [y|e]; simpl; [|done].
    destruct (mapM f l) as [k'|e]; simpl; [|done].
    intros [= <-]. simpl. by rewrite (IH k').
Qed.

(** [subset_not_none] accepts [None] and list-likes only, and returns as
    many labels as were asked for. *)
Lemma subset_not_none_length (idx : list label) r (l : list label) :
  _BaseTFProba.subset_not_none idx r = Ok l →
  (r = None ∨ ∃ js, r = Some (ListLike js)) ∧
  length l = selected_length r (length idx).
Proof.
  destruct r as [[start stop step|i|js]|]; simpl; try done.
  - unfold list_positions, pick.
    destruct (mapM (normalize_index (length idx)) js) as [ps|e] eqn:Hps;
      simpl; [|done].
    intros Hl. split; [right; by exists js|].
    rewrite (mapM_Ok_length _ _ _ Hl). by apply mapM_Ok_length in Hps.
  - intros [= <-]. split; [by left | done].
Qed.

(** A list of rows and a list of columns keep the rank of an array; a
    rank-2 result has as many rows and columns as were asked for. *)
Lemma subset_array_shape r c a a' :
  (r = None ∨ ∃ js, r = Some (ListLike js)) →
  (c = None ∨ ∃ js, c = Some (ListLike js)) →
  _BaseTFProba.subset_array r c a = Ok a' →
  length (np.shape a') = 2%nat →
  ∃ n m, np.shape a = [n; m] ∧
         np.shape a' = [selected_length r n; selected_length c m].
Proof.
  intros Hr Hc Ha' Hrank.
  destruct a as [x|xs|ncols rows]; unfold _BaseTFProba.subset_array in Ha';
    simpl in Ha'.
  - destruct Hr as [->|[js ->]], Hc as [->|[js' ->]]; simpl in Ha';
      try discriminate; injection Ha' as <-; done.
  - destruct Hr as [->|[js ->]]; simpl in Ha'.
    + injection Ha' as <-. done.
    + destruct (list_positions js (length xs)) as [ps|e]; simpl in Ha'; [|done].
      destruct (pick ps xs); simpl in Ha'; [|done]. injection Ha' as <-. done.
  - exists (length rows), ncols. split; [done|].
    assert (∀ rs, match c with
                  | Some c => getitem_cols (Arr2 ncols rs) c
                  | None => Ok (Arr2 ncols rs)
                  end = Ok a' →
                  np.shape a' = [length rs; selected_length c ncols]) as Hcols.
    { intros rs. destruct Hc as [->|[js' ->]]; simpl.
      - by intros [= <-].
      - unfold list_positions.
        destruct (mapM (normalize_index ncols) js') as [ps|e] eqn:Hps;
          simpl; [|done].
        destruct (mapM (pick ps) rs) as [rs'|e] eqn:Hrs; simpl; [|done].
        intros [= <-]. simpl.
        rewrite (mapM_Ok_length _ _ _ Hrs). by apply mapM_Ok_length in Hps as ->. }
    destruct Hr as [->|[js ->]]; simpl in Ha'.
    + by apply Hcols.
    + unfold list_positions, pick in Ha'.
      destruct (mapM (normalize_index (length rows)) js) as [ps|e] eqn:Hps;
        simpl in Ha'; [|done].
      destruct (mapM (item rows) ps) as [rs|e] eqn:Hrs; simpl in Ha'; [|done].
      rewrite (Hcols rs Ha'). simpl.
      rewrite (mapM_Ok_length _ _ _ Hrs). by apply mapM_Ok_length in Hps as ->.
Qed.

Lemma stretch_length {A} (n : nat) (l : list A) :
  length l = n ∨ length l = 1%nat → length (np.stretch n l) = n.
Proof.
  destruct l as [|x [|y l]]; simpl.
  - by intros [<-|?].
  - intros _. apply length_replicate.
  - by intros [<-|?].
Qed.

Lemma broadcast_dim_Ok (m n k : nat) :
  np.broadcast_dim m n = Ok k →
  (m = k ∨ m = 1%nat) ∧ (n = k ∨ n = 1%nat).
Proof.
  unfold np.broadcast_dim. repeat case_decide; intros [= <-]; subst; auto.
Qed.

(** An array broadcast to the common shape has that shape. *)
Lemma broadcast_to_shape a (b : ndarray V) (s : list nat) :
  np.broadcast_shapes (np.shape a) (np.shape b) = Ok s →
  np.shape (np.broadcast_to a s) = s ∧ np.shape (np.broadcast_to b s) = s.
Proof.
  unfold np.broadcast_shapes.
  destruct a as [x|xs|nc rows], b as [y|ys|nc' rows']; simpl;
    unfold reverse; simpl.
  all: repeat match goal with
       | |- context [np.broadcast_dim ?m ?n] =>
           let H := fresh "Hd" in
           destruct (np.broadcast_dim m n) eqn:H; simpl; [|done];
           apply broadcast_dim_Ok in H
       end.
  all: intros [= <-]; simpl; rewrite ?length_replicate.
  all: rewrite ?stretch_length by (rewrite ?length_fmap; tauto); done.
Qed.

End Shapes.

(** ** The shape invariant *)

Section ShapeInvariant.
Context {V : Type}.
Implicit Types (self t : table V) (w : world V) (d : tfd.distribution V).

Lemma RangeIndex_length (n : nat) : length (pd.RangeIndex n) = n.
Proof. unfold pd.RangeIndex. by rewrite length_fmap, length_seq. Qed.

(** What [Normal.__init__] does when it returns. *)
Lemma Normal_init_Ok (mu sigma : ndarray V) (index0 columns0 : option (list label))
    w v w' :
  Normal.__init__ mu sigma index0 columns0 w = (Ok v, w') →
  ∃ s rows cols,
    np.broadcast_shapes (np.shape mu) (np.shape sigma) = Ok s ∧
    match index0 with
    | None => ∃ n, s !! 0%nat = Some n ∧ rows = pd.RangeIndex n
    | Some l => rows = l
    end ∧
    match columns0 with
    | None => ∃ m, s !! 1%nat = Some m ∧ cols = pd.RangeIndex m
    | Some l => cols = l
    end ∧
    get_table w' v
    = Some {| cls := C_Normal; index := rows; columns := cols; distr := None;
              attrs := {[ "mu" := mu; "sigma" := sigma;
                          "_mu" := np.broadcast_to mu s;
                          "_sigma" := np.broadcast_to sigma s ]} |}.
Proof.
  unfold Normal.__init__, Normal._get_bc_params, np.broadcast_arrays.
  unfold mbind, M_bind, result_bind, lift, new, item.
  destruct (np.broadcast_shapes (np.shape mu) (np.shape sigma)) as [s|e] eqn:Hs;
    simpl; [|done].
  rewrite (proj1 (broadcast_to_shape _ _ _ Hs)).
  intros Hrun. exists s.
  destruct index0 as [l|], columns0 as [l'|]; simpl in Hrun.
  - injection Hrun as <- <-. exists l, l'. do 3 (split; [done|]).
    apply get_table_new.
  - destruct (s !! 1%nat) as [m|] eqn:Hm; simpl in Hrun; [|done].
    injection Hrun as <- <-. exists l, (pd.RangeIndex m).
    split; [done|]. split; [done|]. split; [by exists m|].
    apply get_table_new.
  - destruct (s !! 0%nat) as [n|] eqn:Hn; simpl in Hrun; [|done].
    injection Hrun as <- <-. exists (pd.RangeIndex n), l'.
    split; [done|]. split; [by exists n|]. split; [done|].
    apply get_table_new.
  - destruct (s !! 0%nat) as [n|] eqn:Hn; simpl in Hrun; [|done].
    destruct (s !! 1%nat) as [m|] eqn:Hm; simpl in Hrun; [|done].
    injection Hrun as <- <-. exists (pd.RangeIndex n), (pd.RangeIndex m).
    split; [done|]. split; [by exists n|]. split; [by exists m|].
    apply get_table_new.
Qed.

(** A [Normal] whose labels are defaulted, or given in the number the
    broadcast shape asks for, satisfies the invariant. *)
Lemma Normal_init_invariant (mu sigma : ndarray V)
    (index0 columns0 : option (list label)) w v w' :
  (∀ n m, np.broadcast_shapes (np.shape mu) (np.shape sigma) = Ok [n; m] →
          (∀ l, index0 = Some l → length l = n) ∧
          (∀ l, columns0 = Some l → length l = m)) →
  Normal.__init__ mu sigma index0 columns0 w = (Ok v, w') →
  ∃ t, get_table w' v = Some t ∧ shape_invariant t.
Proof.
  intros Hfit (s & rows & cols & Hs & Hrows & Hcols & Ht)%Normal_init_Ok.
  eexists. split; [exact Ht|]. split; simpl.
  - intros name a Hname Ha Hrank.
    assert (np.shape a = s) as Hshape.
    { destruct (broadcast_to_shape _ _ _ Hs) as [Hmu Hsigma].
      apply elem_of_cons in Hname as [->|Hname].
      - rewrite lookup_insert_ne, lookup_insert_ne, lookup_insert_eq in Ha by done.
        by injection Ha as <-.
      - apply list_elem_of_singleton in Hname as ->.
        rewrite lookup_insert_ne, lookup_insert_ne, lookup_insert_ne,
          lookup_singleton_eq in Ha by done.
        by injection Ha as <-. }
    rewrite Hshape in *. destruct s as [|n [|m [|? ?]]]; try done.
    destruct (Hfit n m Hs) as [Hi Hc]. simpl. f_equal; [|f_equal].
    + destruct index0 as [l|]; [subst rows; symmetry; by apply Hi|].
      destruct Hrows as (n' & [= <-] & ->). symmetry. apply RangeIndex_length.
    + destruct columns0 as [l|]; [subst cols; symmetry; by apply Hc|].
      destruct Hcols as (m' & [= <-] & ->). symmetry. apply RangeIndex_length.
  - intros k a _ Ha. unfold params in Ha. simpl in Ha.
    by rewrite lookup_empty in Ha.
Qed.

(** A successful [_iloc] keeps the invariant. *)
Lemma iloc_invariant self (r c : option (selector Z)) w v w' d :
  distr self = Some d →
  made_by_its_class d →
  shape_invariant self →
  _BaseTFProba._iloc self r c w = (Ok v, w') →
  ∃ t', get_table w' v = Some t' ∧ shape_invariant t'.
Proof.
  intros Hdistr Hgen [_ Hinv] Hrun.
  apply iloc_Ok in Hrun
    as (d0 & sp & d' & rows & cols & Hd & Hsp & Hc & Hr & Hcs & -> & ->).
  assert (d0 = d) as -> by (unfold _BaseTFProba.get_distr in Hd;
                            rewrite Hdistr in Hd; by injection Hd).
  destruct (subset_params_Ok _ _ _ _ _ Hd Hsp) as [Hdom Hall].
  apply call_Ok in Hc as ->.
  apply subset_not_none_length in Hr as [Hr Hrows].
  apply subset_not_none_length in Hcs as [Hcs Hcols].
  eexists. split; [apply get_table_new|]. split; simpl.
  - intros name a _ Ha. by rewrite lookup_empty in Ha.
  - intros k a' Hk Ha' Hrank. unfold params in Ha'. simpl in Ha'.
    assert (k ∈ dom sp) as [a'' Hl]%elem_of_dom.
    { rewrite Hdom. apply elem_of_difference. split; [|by rewrite elem_of_reserved].
      apply lookup_union_Some_raw in Ha' as [Hl|[_ Hl]].
      - assert (k ∈ dom sp) as Hin by (apply elem_of_dom; by exists a').
        rewrite Hdom in Hin. by apply elem_of_difference in Hin as [? _].
      - apply (made_by_its_class_defaults _ Hgen). apply elem_of_dom. by exists a'. }
    rewrite (lookup_union_Some_l _ _ _ _ Hl) in Ha'. injection Ha' as <-.
    assert (k ∈ dom (tfd.parameters d)) as [a Ha]%elem_of_dom.
    { assert (k ∈ dom sp) as Hin by (apply elem_of_dom; by exists a'').
      rewrite Hdom in Hin. by apply elem_of_difference in Hin as [? _]. }
    rewrite <- elem_of_reserved in Hk.
    destruct (Hall k a Hk Ha) as (a1 & Ha1 & Hl1).
    rewrite Hl in Hl1. injection Hl1 as <-.
    destruct (subset_array_shape _ _ _ _ Hr Hcs Ha1 Hrank) as (n & m & Hshape & ->).
    rewrite elem_of_reserved in Hk.
    assert (params self !! k = Some a) as Hpa
      by (unfold params; by rewrite Hdistr).
    pose proof (Hinv k a Hk Hpa) as Hta. unfold has_table_shape in Hta.
    rewrite Hshape in Hta. injection (Hta eq_refl) as -> ->.
    simpl. by rewrite Hrows, Hcols.
Qed.

(** [_loc] returns what [_iloc] returns for the positions of the
    labels. *)
Lemma loc_Ok self (r c : option (selector label)) w v w' :
  _BaseTFProba._loc self r c w = (Ok v, w') →
  ∃ r' c', _BaseTFProba._iloc self r' c' w = (Ok v, w').
Proof.
  unfold _BaseTFProba._loc, mbind at 1 2, M_bind, lift.
  destruct r as [r|]; simpl.
  - destruct (pd.get_indexer_for (index self) r) as [js|e]; simpl; [|done].
    destruct c as [c|]; simpl.
    + destruct (pd.get_indexer_for (columns self) c) as [js'|e]; simpl; [|done].
      intros Hrun. by eexists _, _.
    + intros Hrun. by eexists _, _.
  - destruct c as [c|]; simpl.
    + destruct (pd.get_indexer_for (columns self) c) as [js'|e]; simpl; [|done].
      intros Hrun. by eexists _, _.
    + intros Hrun. by eexists _, _.
Qed.

End ShapeInvariant.

(** C6, as the specification states it, fails:
    [Normal(mu=[[0, 1], [2, 3], [4, 5]], sigma=1, index=[1, 2])] is
    constructed and has shape [(2, 2)], while its broadcast mean [_mu] is a
    rank-2 array of shape [(3, 2)]. *)
Lemma explicit_labels_break_the_shape_invariant :
  ∃ v w' t,
    Normal.__init__ (ints [[0; 1]; [2; 3]; [4; 5]]) (Arr0 (PyInt 1))
      (Some [LInt 1; LInt 2]) None empty_world = (Ok v, w') ∧
    get_table w' v = Some t ∧
    BaseProba.shape t = (2%nat, 2%nat) ∧
    (∃ a, attrs t !! "_mu" = Some a ∧ np.shape a = [3%nat; 2%nat]) ∧
    ¬ shape_invariant t.
Proof.
  eexists _, _, _. split; [vm_compute; reflexivity|].
  split; [reflexivity|]. split; [reflexivity|].
  split; [eexists; split; vm_compute; reflexivity|].
  intros [Hattrs _].
  specialize (Hattrs "_mu" (ints [[0; 1]; [2; 3]; [4; 5]])).
  assert (np.shape (ints [[0; 1]; [2; 3]; [4; 5]]) = [2%nat; 2%nat]) as Hshape.
  { apply Hattrs; [left | vm_compute; reflexivity | reflexivity]. }
  discriminate Hshape.
Qed.

(** C6, amended.  [shape] is always the pair of the numbers of row and
    column labels.  A [Normal] constructed with its labels left out, or
    given in the number the broadcast shape of its parameters asks for,
    satisfies the shape invariant: its broadcast arrays of rank 2 have
    exactly the table's shape.  A selection by position or by label that
    returns a table, made on a table that satisfies the invariant and
    wraps a distribution object of its class, returns a table that
    satisfies it. *)
Theorem shape_invariant_of_tables {V} :
  (∀ t : table V,
     BaseProba.shape t = (length (index t), length (columns t))) ∧
  (∀ (mu sigma : ndarray V) (index0 columns0 : option (list label))
     (w : world V) v w',
     (∀ n m, np.broadcast_shapes (np.shape mu) (np.shape sigma) = Ok [n; m] →
             (∀ l, index0 = Some l → length l = n) ∧
             (∀ l, columns0 = Some l → length l = m)) →
     Normal.__init__ mu sigma index0 columns0 w = (Ok v, w') →
     ∃ t, get_table w' v = Some t ∧ shape_invariant t) ∧
  (∀ (self : table V) d r c (w : world V) v w',
     distr self = Some d → made_by_its_class d → shape_invariant self →
     _BaseTFProba._iloc self r c w = (Ok v, w') →
     ∃ t', get_table w' v = Some t' ∧ shape_invariant t') ∧
  (∀ (self : table V) d r c (w : world V) v w',
     distr self = Some d → made_by_its_class d → shape_invariant self →
     _BaseTFProba._loc self r c w = (Ok v, w') →
     ∃ t', get_table w' v = Some t' ∧ shape_invariant t').
Proof.
  split; [done|]. split; [|split].
  - intros mu sigma index0 columns0 w v w' Hfit Hrun.
    by apply (Normal_init_invariant mu sigma index0 columns0 w).
  - intros self d r c w v w' Hd Hgen Hinv Hrun.
    by apply (iloc_invariant self r c w v w' d).
  - intros self d r c w v w' Hd Hgen Hinv Hrun.
    apply loc_Ok in Hrun as (r' & c' & Hrun).
    by apply (iloc_invariant self r' c' w v w' d).
Qed.

Lemma example_table_invariant : shape_invariant example_table.
Proof.
  split.
  - intros name a Hname Ha. exfalso. revert Ha. simpl.
    rewrite lookup_insert_Some, lookup_singleton_Some.
    intros [[<- _]|[_ [<- _]]];
      repeat (apply elem_of_cons in Hname as [Hname|Hname]; [discriminate Hname|]);
      by apply elem_of_nil in Hname.
  - intros k a Hk Ha. unfold params in Ha. simpl in Ha.
    apply lookup_union_Some_raw in Ha as [Ha|[_ Ha]].
    + apply lookup_insert_Some in Ha as [[_ <-]|[_ Ha]]; [by intros _|].
      apply lookup_singleton_Some in Ha as [_ <-]. by intros _.
    + apply lookup_insert_Some in Ha as [[_ <-]|[_ Ha]]; [by intros ?|].
      apply lookup_insert_Some in Ha as [[_ <-]|[_ Ha]]; [by intros ?|].
      apply lookup_singleton_Some in Ha as [_ <-]. by intros ?.
Defined.

Lemma shape_invariant_of_tables_witness :
  let made := Normal.__init__ (ints [[0; 1]; [2; 3]; [4; 5]]) (Arr0 (PyInt 1))
                None None empty_world in
  let run := _BaseTFProba._iloc example_table (Some (ListLike [2; 0]))
               (Some (ListLike [1])) example_world in
  made = (Ok (Ref 0%nat), made.2) ∧
  (∃ t, get_table made.2 (Ref 0%nat) = Some t ∧ shape_invariant t) ∧
  shape_invariant example_table ∧
  run = (Ok (Ref 1%nat), run.2) ∧
  (∃ t', get_table run.2 (Ref 1%nat) = Some t' ∧ shape_invariant t').
Proof.
  intros made run.
  assert (made = (Ok (Ref 0%nat), made.2)) as Hmade by (vm_compute; reflexivity).
  assert (run = (Ok (Ref 1%nat), run.2)) as Hrun by (vm_compute; reflexivity).
  assert (∃ d, distr example_table = Some d ∧ made_by_its_class d)
    as (d & Hd & Hgen).
  { eexists. split; [reflexivity|].
    exists {[ "loc" := example_mean; "scale" := example_sd ]}.
    vm_compute. reflexivity. }
  destruct (@shape_invariant_of_tables pyscalar) as (_ & Hnew & Hsel & _).
  split; [exact Hmade|]. split.
  - apply (Hnew (ints [[0; 1]; [2; 3]; [4; 5]]) (Arr0 (PyInt 1)) None None
             empty_world (Ref 0%nat) made.2); [|exact Hmade].
    intros n m _. split; intros l Hl; discriminate Hl.
  - split; [exact example_table_invariant|]. split; [exact Hrun|].
    exact (Hsel example_table d _ _ example_world _ _ Hd Hgen
             example_table_invariant Hrun).
Defined.

(** * Further properties *)

(** ** Lists of positions *)

Section Picking.

Lemma mapM_Ok_Forall2 {A B} (f : A → result B) (l : list A) (k : list B) :
  mapM f l = Ok k ↔ Forall2 (λ x y, f x = Ok y) l k.
Proof.
  revert k. induction l as [|x l IH]; intros k; simpl.
  - split; [intros [= <-]; constructor | by intros ->%Forall2_nil_inv_l].
  - split.
    + destruct (f x) as [y|e] eqn:Hx; simpl; [|done].
      destruct (mapM f l) as [k'|e] eqn:Hl; simpl; [|done].
      intros [= <-]. constructor; [done|]. by apply IH.
    + intros (y & k' & Hx & Hl & ->)%Forall2_cons_inv_l.
      rewrite Hx. simpl. apply IH in Hl. rewrite Hl. done.
Qed.

Lemma mapM_Raise_exists {A B} (f : A → result B) (l : list A) e :
  mapM f l = Raise e → ∃ x, x ∈ l ∧ f x = Raise e.
Proof.
  induction l as [|x l IH]; simpl; [done|].
  destruct (f x) as [y|e'] eqn:Hx; simpl.
  - destruct (mapM f l) as [k'|e'] eqn:Hl; simpl; [done|].
    intros [= ->]. destruct (IH eq_refl) as (x' & Hin & Hx').
    exists x'. split; [by right | done].
  - intros [= ->]. exists x. split; [by left | done].
Qed.


Lemma normalize_index_Ok (n : nat) (i : Z) (p : nat) :
  normalize_index n i = Ok p → (p < n)%nat ∧ - Z.of_nat n ≤ i < Z.of_nat n.
Proof.
  unfold normalize_index. repeat case_decide; intros [= <-]; lia.
Qed.

Lemma normalize_index_Raise (n : nat) (i : Z) e :
  normalize_index n i = Raise e →
  e = IndexError ∧ ¬ (- Z.of_nat n ≤ i < Z.of_nat n).
Proof.
  unfold normalize_index. repeat case_decide; intros [= <-]. split; [done | lia].
Qed.

Lemma normalize_index_of_nat (n p : nat) :
  (p < n)%nat → normalize_index n (Z.of_nat p) = Ok p.
Proof.
  intros Hp. unfold normalize_index. rewrite decide_True by lia.
  by rewrite Nat2Z.id.
Qed.


Lemma list_positions_Ok (js : list Z) (n : nat) (ps : list nat) :
  list_positions js n = Ok ps → Forall (λ p, (p < n)%nat) ps.
Proof.
  intros Hps%mapM_Ok_Forall2.
  induction Hps as [|i p js ps Hi _ IH]; constructor; [|done].
  by apply normalize_index_Ok in Hi as [? _].
Qed.

Lemma list_positions_Raise (js : list Z) (n : nat) e :
  list_positions js n = Raise e →
  e = IndexError ∧ ¬ Forall (λ i, - Z.of_nat n ≤ i < Z.of_nat n) js.
Proof.
  intros (i & Hin & Hi)%mapM_Raise_exists.
  apply normalize_index_Raise in Hi as [-> Hi]. split; [done|].
  rewrite Forall_forall. intros Hall. by apply Hi, Hall.
Qed.





Lemma pick_Raise {A} (ps : list nat) (l : list A) e :
  pick ps l = Raise e → e = IndexError.
Proof.
  intros (p & _ & Hp)%mapM_Raise_exists. unfold item in Hp.
  destruct (l !! p); [done|]. by injection Hp as <-.
Qed.

End Picking.

(** ** Labels and positions *)

Section LabelsAndPositions.
Context {V : Type}.

Lemma positions_of_unique (l : label) (idx : list label) (p from : nat) :
  NoDup idx → idx !! p = Some l →
  pd.positions_of l idx from = [(from + p)%nat].
Proof.
  revert p from. induction idx as [|x idx IH]; intros p from Hnd Hp; [done|].
  apply NoDup_cons in Hnd as [Hx Hnd]. simpl. destruct p as [|p]; simpl in Hp.
  - injection Hp as ->. rewrite decide_True by done.
    rewrite (positions_of_absent _ _ _ Hx). by rewrite Nat.add_0_r.
  - rewrite decide_False.
    + rewrite (IH p (S from) Hnd Hp). f_equal. lia.
    + intros ->. apply Hx. by apply list_elem_of_lookup_2 in Hp.
Qed.

Lemma get_indexer_for_unique (idx ls : list label) (ps : list nat) :
  NoDup idx →
  Forall2 (λ l p, idx !! p = Some l) ls ps →
  pd.get_indexer_for idx (ListLike ls) = Ok (Z.of_nat <$> ps).
Proof.
  intros Hnd Hall. unfold pd.get_indexer_for. f_equal.
  induction Hall as [|l p ls ps Hp _ IH]; [done|].
  rewrite bind_cons, IH, (positions_of_unique l idx p 0 Hnd Hp). done.
Qed.

(** X1.  On a table whose row labels and column labels are each free of
    duplicates, selecting by labels is selecting by the positions at
    which the labels stand: [_loc] with lists of labels of the table is
    [_iloc] with the lists of their positions, in result and in effect. *)
Theorem loc_is_iloc_at_the_positions (self : table V)
    (r : option (selector label)) (c : option (selector label))
    (r' c' : option (selector Z)) (w : world V) :
  NoDup (index self) → NoDup (columns self) →
  at_positions (index self) r r' →
  at_positions (columns self) c c' →
  _BaseTFProba._loc self r c w = _BaseTFProba._iloc self r' c' w.
Proof.
  intros Hni Hnc Hr Hc.
  unfold _BaseTFProba._loc, mbind at 1 2, M_bind, lift.
  destruct Hr as [|ls ps Hls], Hc as [|ls' ps' Hls'].
  - done.
  - by rewrite (get_indexer_for_unique _ _ _ Hnc Hls').
  - by rewrite (get_indexer_for_unique _ _ _ Hni Hls).
  - by rewrite (get_indexer_for_unique _ _ _ Hni Hls),
      (get_indexer_for_unique _ _ _ Hnc Hls').
Qed.

End LabelsAndPositions.

Lemma loc_is_iloc_at_the_positions_witness :
  NoDup (index example_table) ∧ NoDup (columns example_table) ∧
  at_positions (index example_table)
    (Some (ListLike [LInt 2; LInt 0; LInt 2])) (Some (ListLike [2; 0; 2])) ∧
  at_positions (columns example_table) None None ∧
  _BaseTFProba._loc example_table (Some (ListLike [LInt 2; LInt 0; LInt 2]))
    None example_world
  = _BaseTFProba._iloc example_table (Some (ListLike [2; 0; 2])) None
      example_world.
Proof.
  assert (NoDup (index example_table)) as Hni
    by (apply (bool_decide_unpack _); vm_compute; exact I).
  assert (NoDup (columns example_table)) as Hnc
    by (apply (bool_decide_unpack _); vm_compute; exact I).
  assert (at_positions (index example_table)
            (Some (ListLike [LInt 2; LInt 0; LInt 2]))
            (Some (ListLike [2; 0; 2]))) as Hr.
  { apply (at_positions_list _ _ [2; 0; 2]%nat). repeat constructor. }
  pose proof (at_positions_None (columns example_table)) as Hc.
  split; [exact Hni|]. split; [exact Hnc|]. split; [exact Hr|].
  split; [exact Hc|].
  exact (loc_is_iloc_at_the_positions example_table _ _ _ _ example_world
           Hni Hnc Hr Hc).
Defined.

(** ** What a selection does to the store *)

Section StoreEffects.
Context {V : Type}.
Implicit Types (self t : table V) (w : world V).

Lemma iloc_outcome self (r c : option (selector Z)) w :
  method_outcome w (_BaseTFProba._iloc self r c w).
Proof.
  destruct (_BaseTFProba._iloc self r c w) as [[v|e] w'] eqn:Hrun.
  - apply iloc_Ok in Hrun
      as (d & sp & d' & rows & cols & _ & _ & _ & _ & _ & -> & ->).
    simpl. split; [done|]. by eexists.
  - unfold _BaseTFProba._iloc, mbind, M_bind, lift, print, new in Hrun.
    simpl in Hrun.
    repeat match type of Hrun with
    | context [match ?x with Ok _ => _ | Raise _ => _ end] =>
        destruct x; simpl in Hrun
    end; first [discriminate Hrun | by injection Hrun as <- <-].
Qed.

Lemma loc_outcome self (r c : option (selector label)) w :
  method_outcome w (_BaseTFProba._loc self r c w).
Proof.
  unfold _BaseTFProba._loc, mbind at 1 2, M_bind, lift.
  destruct r as [r|], c as [c|]; simpl;
    repeat match goal with
    | |- context [pd.get_indexer_for ?i ?x] =>
        destruct (pd.get_indexer_for i x); simpl
    end; try done; apply iloc_outcome.
Qed.

Lemma method_of_outcome {A} (m : method_name A) self
    (r c : option (selector A)) w :
  method_outcome w (method_of (cls self) m self r c w).
Proof.
  destruct m; destruct (cls self); simpl;
    first [done | apply loc_outcome | apply iloc_outcome].
Qed.

End StoreEffects.

(** X2.  An indexing access through a view never changes or removes an
    object of the store.  It adds one object, at the next free address,
    exactly when it returns a table other than the one it was asked on; it
    adds nothing when it raises or returns [NotImplemented]. *)
Theorem getitem_keeps_the_store {V A} (view : _Indexer.t A) (k : key A)
    (w w' : world V) (res : result value) :
  _Indexer.__getitem__ view k w = (res, w') →
  (∀ a t, heap w !! a = Some t → heap w' !! a = Some t) ∧
  match res with
  | Ok (Ref a) =>
      (a = _Indexer.ref view ∧ w' = w) ∨
      (a = length (heap w) ∧ ∃ t', heap w' = heap w ++ [t'])
  | Ok NotImplemented => w' = w
  | Raise _ => heap w' = heap w
  end.
Proof.
  intros Hrun.
  assert (match res with
          | Ok (Ref a) =>
              (a = _Indexer.ref view ∧ w' = w) ∨
              (a = length (heap w) ∧ ∃ t', heap w' = heap w ++ [t'])
          | Ok NotImplemented => w' = w
          | Raise _ => heap w' = heap w
          end) as Hres.
  { destruct view as [ref m]. simpl.
    destruct (heap w !! ref) as [t|] eqn:Ht.
    - assert (∀ r c, method_of (cls t) m t r c w = (res, w') →
                match res with
                | Ok (Ref a) =>
                    (a = ref ∧ w' = w) ∨
                    (a = length (heap w) ∧ ∃ t', heap w' = heap w ++ [t'])
                | Ok NotImplemented => w' = w
                | Raise _ => heap w' = heap w
                end) as Hmethod.
      { intros r c Hm. pose proof (method_of_outcome m t r c w) as Hout.
        rewrite Hm in Hout. destruct res as [[a|]|e]; simpl in Hout;
          [by right | done | done]. }
      destruct k as [k|ks].
      + rewrite (getitem_single _ _ _ _ _ Ht) in Hrun. by eapply Hmethod.
      + destruct (decide (length ks = 2%nat)) as [Hlen|Hlen].
        * destruct ks as [|rows [|cols [|? ?]]]; try done.
          rewrite (getitem_pair _ _ _ _ _ _ Ht) in Hrun.
          destruct (_Indexer.is_noneslice rows && _Indexer.is_noneslice cols).
          -- injection Hrun as <- <-. by left.
          -- by eapply Hmethod.
        * rewrite (getitem_bad_arity _ _ _ _ _ Ht Hlen) in Hrun.
          by injection Hrun as <- <-.
    - unfold _Indexer.__getitem__, getattr, mbind, M_bind, deref in Hrun.
      simpl in Hrun. rewrite Ht in Hrun. by injection Hrun as <- <-. }
  split; [|exact Hres].
  intros a t Ha. destruct res as [[b|]|e].
  - destruct Hres as [[_ ->]|[_ [t' ->]]]; [done|]. by apply lookup_app_l_Some.
  - by subst.
  - by rewrite Hres.
Qed.

Lemma getitem_keeps_the_store_witness :
  let run := _Indexer.__getitem__ (iloc 0%nat)
               (Tuple [ListLike [1]; Slice None None None]) example_world in
  run = (Ok (Ref 1%nat), run.2) ∧
  heap run.2 !! 0%nat = Some example_table.
Proof.
  intros run.
  assert (run = (Ok (Ref 1%nat), run.2)) as Hrun by (vm_compute; reflexivity).
  split; [exact Hrun|].
  exact (proj1 (getitem_keeps_the_store (iloc 0%nat)
                  (Tuple [ListLike [1]; Slice None None None])
                  example_world run.2 (Ok (Ref 1%nat)) Hrun)
           0%nat example_table eq_refl).
Defined.

(** ** Tables without an implementation of selection *)

Section NotImplementedTables.
Context {V : Type}.
Implicit Types (t : table V) (w : world V).

Lemma method_of_base {A} (m : method_name A) t (r c : option (selector A)) w :
  cls t = C_BaseProba ∨ cls t = C_Normal →
  method_of (cls t) m t r c w = (Ok NotImplemented, w).
Proof. intros [->| ->]; by destruct m. Qed.

End NotImplementedTables.

(** X3.  A table of class [BaseProba] or [normal.Normal] inherits
    [_loc] and [_iloc] from [BaseProba]: through either view, every key
    of one selector, and every pair other than [(:, :)], gives
    [NotImplemented]; nothing is raised for them and nothing is
    created. *)
Theorem selection_not_implemented_on_base_tables {V A}
    (ref : addr) (m : method_name A) (w : world V) (t : table V) (k : key A) :
  heap w !! ref = Some t →
  cls t = C_BaseProba ∨ cls t = C_Normal →
  _Indexer.__getitem__ {| _Indexer.ref := ref; _Indexer.method := m |} k w
  = match k with
    | Single _ => (Ok NotImplemented, w)
    | Tuple [rows; cols] =>
        if _Indexer.is_noneslice rows && _Indexer.is_noneslice cols
        then (Ok (Ref ref), w)
        else (Ok NotImplemented, w)
    | Tuple _ =>
        (Raise (ValueError
           "there should be one or two keys when calling .loc, e.g., mydist[key], or mydist[key1, key2]"),
         w)
    end.
Proof.
  intros Ht Hcls. destruct k as [k|ks].
  - rewrite (getitem_single _ _ _ _ _ Ht). by apply method_of_base.
  - destruct ks as [|rows [|cols [|k3 ks]]];
      try (by apply (getitem_bad_arity _ _ _ _ _ Ht)).
    rewrite (getitem_pair _ _ _ _ _ _ Ht).
    destruct (_Indexer.is_noneslice rows && _Indexer.is_noneslice cols);
      [done|]. by apply method_of_base.
Qed.

Lemma selection_not_implemented_on_base_tables_witness :
  heap example_Normal_world !! 0%nat = Some example_Normal ∧
  (cls example_Normal = C_BaseProba ∨ cls example_Normal = C_Normal) ∧
  _Indexer.__getitem__ (iloc 0%nat) (Single (ListLike [1])) example_Normal_world
  = (Ok NotImplemented, example_Normal_world).
Proof.
  split; [reflexivity|]. split; [right; reflexivity|].
  exact (selection_not_implemented_on_base_tables 0%nat name_iloc
           example_Normal_world example_Normal (Single (ListLike [1]))
           eq_refl (or_intror eq_refl)).
Defined.

(** X4.  On a [normal.Normal], [pdf], [log_pdf], [cdf] and [ppf] raise
    an [AttributeError] for every frame of query points, whatever the
    arithmetic would give: [self.loc[x.index, x.columns]] is
    [NotImplemented], which has no attribute [mu].  The store is left as
    it was. *)
Theorem entrywise_functions_raise {V}
    (pdf_arr log_pdf_arr cdf_arr ppf_arr :
       ndarray V → ndarray V → ndarray V → result (ndarray V))
    (self : addr) (x : DataFrame V) (w : world V) (t : table V) :
  heap w !! self = Some t →
  cls t = C_Normal →
  Normal_functions.pdf pdf_arr self x w = (Raise AttributeError, w) ∧
  Normal_functions.log_pdf log_pdf_arr self x w = (Raise AttributeError, w) ∧
  Normal_functions.cdf cdf_arr self x w = (Raise AttributeError, w) ∧
  Normal_functions.ppf ppf_arr self x w = (Raise AttributeError, w).
Proof.
  intros Ht Hcls.
  assert (∀ formula, Normal_functions.entrywise formula self x w
                     = (Raise AttributeError, w)) as Hall.
  { intros formula. unfold Normal_functions.entrywise, mbind at 1, M_bind, loc.
    rewrite (getitem_pair _ _ _ _ _ _ Ht).
    rewrite method_of_base by (by right). done. }
  repeat split; apply Hall.
Qed.

Lemma entrywise_functions_raise_witness :
  heap example_Normal_world !! 0%nat = Some example_Normal ∧
  cls example_Normal = C_Normal ∧
  Normal_functions.cdf (λ x mu sigma, Ok x) 0%nat example_frame
    example_Normal_world
  = (Raise AttributeError, example_Normal_world).
Proof.
  split; [reflexivity|]. split; [reflexivity|].
  exact (proj1 (proj2 (proj2 (entrywise_functions_raise
           (λ x mu sigma, Ok x) (λ x mu sigma, Ok x) (λ x mu sigma, Ok x)
           (λ x mu sigma, Ok x) 0%nat example_frame example_Normal_world
           example_Normal eq_refl eq_refl)))).
Defined.

(** ** Sampling, mean and variance of a [normal.Normal] *)

Section NormalFunctions.
Context {V : Type}.
Implicit Types (t : table V) (w : world V).

Lemma gen_unif_run (uniform : nat → nat → nat → V) (self : addr) (k : nat) w t :
  heap w !! self = Some t →
  ∃ u, Normal_functions.gen_unif uniform self k w = (Ok u, w) ∧
       df_index u = index t ∧ df_columns u = columns t.
Proof.
  intros Ht. unfold Normal_functions.gen_unif, mbind, M_bind, deref, lift.
  rewrite Ht. simpl. unfold new_DataFrame.
  rewrite decide_True by (by rewrite length_map, length_seq).
  by eexists.
Qed.

Lemma ppf_raises ppf_arr (self : addr) (x : DataFrame V) w t :
  heap w !! self = Some t → cls t = C_Normal →
  Normal_functions.ppf ppf_arr self x w = (Raise AttributeError, w).
Proof.
  intros Ht Hcls.
  unfold Normal_functions.ppf, Normal_functions.entrywise, mbind at 1, M_bind, loc.
  rewrite (getitem_pair _ _ _ _ _ _ Ht).
  rewrite method_of_base by (by right). done.
Qed.

(** The arrays a [Normal] keeps, read back from the table
    [Normal.__init__] makes. *)
Lemma Normal_init_arrays (mu sigma : ndarray V)
    (index0 columns0 : option (list label)) w v w' :
  Normal.__init__ mu sigma index0 columns0 w = (Ok v, w') →
  ∃ a t s,
    v = Ref a ∧ heap w' !! a = Some t ∧
    np.broadcast_shapes (np.shape mu) (np.shape sigma) = Ok s ∧
    attrs t !! "_mu" = Some (np.broadcast_to mu s) ∧
    attrs t !! "_sigma" = Some (np.broadcast_to sigma s) ∧
    match index0 with
    | None => ∃ n, s !! 0%nat = Some n ∧ index t = pd.RangeIndex n
    | Some l => index t = l
    end ∧
    match columns0 with
    | None => ∃ m, s !! 1%nat = Some m ∧ columns t = pd.RangeIndex m
    | Some l => columns t = l
    end.
Proof.
  intros (s & rows & cols & Hs & Hrows & Hcols & Ht)%Normal_init_Ok.
  destruct v as [a|]; [|done]. simpl in Ht.
  eexists a, _, s. split; [done|]. split; [exact Ht|]. split; [done|].
  simpl. split; [|split; [|done]].
  - by rewrite lookup_insert_ne, lookup_insert_ne, lookup_insert_eq.
  - by rewrite lookup_insert_ne, lookup_insert_ne, lookup_insert_ne,
      lookup_singleton_eq.
Qed.

Lemma shape_rank_two (a : ndarray V) (n m : nat) :
  np.shape a = [n; m] → ∃ rows, a = Arr2 m rows ∧ length rows = n.
Proof.
  destruct a as [x|xs|ncols rows]; simpl; try done.
  intros [= <- <-]. by exists rows.
Qed.

End NormalFunctions.

(** X5.  [sample] of a [normal.Normal] never returns a sample: with
    [n_samples=None] and with a positive [n_samples] the first call of
    [ppf] raises its [AttributeError]; with [n_samples] zero or negative
    nothing is drawn and [pd.concat] is called with no frames, so that
    what it raises for an empty list is raised. *)
Theorem sample_never_returns {V Stacked}
    (ppf_arr : ndarray V → ndarray V → ndarray V → result (ndarray V))
    (uniform : nat → nat → nat → V)
    (concat : list (DataFrame V) → list Z → result Stacked)
    (self : addr) (w : world V) (t : table V) :
  heap w !! self = Some t →
  cls t = C_Normal →
  Normal_functions.sample ppf_arr uniform concat self None w
  = (Raise AttributeError, w) ∧
  (∀ n, 0 < n →
        Normal_functions.sample ppf_arr uniform concat self (Some n) w
        = (Raise AttributeError, w)) ∧
  (∀ n e, n ≤ 0 → concat [] [] = Raise e →
          Normal_functions.sample ppf_arr uniform concat self (Some n) w
          = (Raise e, w)).
Proof.
  intros Ht Hcls. split; [|split].
  - unfold Normal_functions.sample, mbind at 1, M_bind.
    destruct (gen_unif_run uniform self 0 w t Ht) as (u & -> & _).
    unfold mbind, M_bind. by rewrite (ppf_raises _ _ _ _ _ Ht Hcls).
  - intros n Hn. unfold Normal_functions.sample, mbind at 1, M_bind.
    destruct (Z.to_nat n) as [|n'] eqn:Hn'; [lia|]. simpl.
    unfold mbind at 1, M_bind. unfold mbind at 1, M_bind.
    destruct (gen_unif_run uniform self 0 w t Ht) as (u & -> & _).
    by rewrite (ppf_raises _ _ _ _ _ Ht Hcls).
  - intros n e Hn He. unfold Normal_functions.sample, mbind at 1, M_bind.
    replace (Z.to_nat n) with 0%nat by lia. simpl.
    assert (seqZ 0 n = []) as -> by (unfold seqZ; by replace (Z.to_nat n) with 0%nat by lia).
    unfold mbind, M_bind, lift. by rewrite He.
Qed.

Lemma sample_never_returns_witness :
  heap example_Normal_world !! 0%nat = Some example_Normal ∧
  cls example_Normal = C_Normal ∧
  Normal_functions.sample (λ p mu sigma, Ok p) (λ k i j, PyInt 0)
    (λ objs keys, match objs with
                  | [] => Raise (ValueError "No objects to concatenate")
                  | df :: _ => Ok df
                  end)
    0%nat (Some 5) example_Normal_world
  = (Raise AttributeError, example_Normal_world).
Proof.
  split; [reflexivity|]. split; [reflexivity|].
  apply (proj1 (proj2 (sample_never_returns (λ p mu sigma, Ok p)
           (λ k i j, PyInt 0) _ 0%nat example_Normal_world example_Normal
           eq_refl eq_refl))).
  lia.
Defined.

(** X6.  For a [normal.Normal] constructed with its labels left out,
    [mean()] is the frame of the broadcast [mu] and [var()] the frame of
    the squares of the broadcast [sigma], both under the default labels
    [0..n-1] and [0..m-1] of the broadcast shape. *)
Theorem mean_and_var_of_a_default_Normal {V} (square : V → V)
    (mu sigma : ndarray V) (w : world V) v w' :
  Normal.__init__ mu sigma None None w = (Ok v, w') →
  ∃ a n m,
    v = Ref a ∧
    np.broadcast_shapes (np.shape mu) (np.shape sigma) = Ok [n; m] ∧
    Normal_functions.mean a w'
    = (Ok {| df_index := pd.RangeIndex n; df_columns := pd.RangeIndex m;
             df_values := np.broadcast_to mu [n; m] |}, w') ∧
    Normal_functions.var square a w'
    = (Ok {| df_index := pd.RangeIndex n; df_columns := pd.RangeIndex m;
             df_values := Normal_functions.square_values square
                            (np.broadcast_to sigma [n; m]) |}, w').
Proof.
  intros (a & t & s & -> & Ht & Hs & Hmu & Hsigma & (n & Hn & Hi) & (m & Hm & Hc))
    %Normal_init_arrays.
  assert (s = [n; m]) as ->.
  { assert (length s ≤ 2)%nat as Hlen.
    { unfold np.broadcast_shapes in Hs.
      destruct mu, sigma; simpl in Hs; unfold reverse in Hs; simpl in Hs;
        repeat match type of Hs with
        | context [np.broadcast_dim ?x ?y] =>
            destruct (np.broadcast_dim x y); simpl in Hs; [|done]
        end; injection Hs as <-; simpl; lia. }
    destruct s as [|n' [|m' [|? ?]]]; simpl in *; try done; [|lia].
    by injection Hn as ->; injection Hm as ->. }
  exists a, n, m. split; [done|]. split; [done|].
  destruct (broadcast_to_shape _ _ _ Hs) as [Hsmu Hssigma].
  destruct (shape_rank_two _ _ _ Hsmu) as (rows & Hrmu & Hlmu).
  destruct (shape_rank_two _ _ _ Hssigma) as (rows' & Hrsigma & Hlsigma).
  split.
  - rewrite Hrmu in *.
    unfold Normal_functions.mean, mbind, M_bind, deref, lift.
    rewrite Ht, Hmu. simpl.
    rewrite decide_True by (by rewrite Hi, Hc, !RangeIndex_length).
    by rewrite Hi, Hc.
  - rewrite Hrsigma in *.
    unfold Normal_functions.var, mbind, M_bind, deref, lift.
    rewrite Ht, Hsigma. simpl.
    rewrite decide_True by (by rewrite Hi, Hc, !RangeIndex_length).
    simpl. by rewrite Hi, Hc.
Qed.

Lemma mean_and_var_of_a_default_Normal_witness :
  let made := Normal.__init__ example_mean (Arr0 (PyInt 1)) None None
                empty_world in
  made = (Ok (Ref 0%nat), made.2) ∧
  Normal_functions.mean 0%nat made.2
  = (Ok {| df_index := [LInt 0; LInt 1; LInt 2];
           df_columns := [LInt 0; LInt 1];
           df_values := example_mean |}, made.2).
Proof.
  intros made.
  assert (made = (Ok (Ref 0%nat), made.2)) as Hmade by (vm_compute; reflexivity).
  split; [exact Hmade|].
  destruct (mean_and_var_of_a_default_Normal (λ x, x) example_mean
              (Arr0 (PyInt 1)) empty_world (Ref 0%nat) made.2 Hmade)
    as (a & n & m & Ha & Hs & Hmean & _).
  injection Ha as <-.
  assert ([n; m] = [3; 2]%nat) as Hnm
    by (vm_compute in Hs; injection Hs as <- <-; reflexivity).
  injection Hnm as -> ->. exact Hmean.
Defined.

(** X7.  A [normal.Normal] given row and column labels that do not match
    the rank-2 shape its parameters broadcast to is constructed all the
    same, and then [mean()] and [var()] raise a [ValueError] when they
    build their frame. *)
Theorem mean_and_var_raise_on_mismatched_labels {V} (square : V → V)
    (mu sigma : ndarray V) (rows cols : list label) (n m : nat)
    (w : world V) v w' :
  Normal.__init__ mu sigma (Some rows) (Some cols) w = (Ok v, w') →
  np.broadcast_shapes (np.shape mu) (np.shape sigma) = Ok [n; m] →
  ¬ (n = length rows ∧ m = length cols) →
  ∃ a msg,
    v = Ref a ∧
    Normal_functions.mean a w' = (Raise (ValueError msg), w') ∧
    Normal_functions.var square a w' = (Raise (ValueError msg), w').
Proof.
  intros (a & t & s & -> & Ht & Hs & Hmu & Hsigma & Hi & Hc)%Normal_init_arrays
    Hs' Hne.
  rewrite Hs in Hs'. injection Hs' as ->.
  destruct (broadcast_to_shape _ _ _ Hs) as [Hsmu Hssigma].
  destruct (shape_rank_two _ _ _ Hsmu) as (rmu & Hrmu & Hlmu).
  destruct (shape_rank_two _ _ _ Hssigma) as (rsigma & Hrsigma & Hlsigma).
  exists a. eexists. split; [done|]. split.
  - rewrite Hrmu in *.
    unfold Normal_functions.mean, mbind, M_bind, deref, lift.
    rewrite Ht, Hmu. simpl.
    rewrite decide_False by (by rewrite Hi, Hc, Hlmu).
    rewrite Hlmu. reflexivity.
  - rewrite Hrsigma in *.
    unfold Normal_functions.var, mbind, M_bind, deref, lift.
    rewrite Ht, Hsigma. simpl.
    rewrite decide_False by (by rewrite Hi, Hc, Hlsigma).
    rewrite Hlsigma. reflexivity.
Qed.

Lemma mean_and_var_raise_on_mismatched_labels_witness :
  let made := Normal.__init__ example_mean (Arr0 (PyInt 1))
                (Some [LInt 1; LInt 2]) (Some [LStr "a"; LStr "b"])
                empty_world in
  made = (Ok (Ref 0%nat), made.2) ∧
  np.broadcast_shapes (np.shape example_mean) (np.shape (Arr0 (PyInt 1)))
  = Ok [3; 2]%nat ∧
  ¬ (3%nat = length [LInt 1; LInt 2] ∧ 2%nat = length [LStr "a"; LStr "b"]) ∧
  ∃ msg, Normal_functions.mean 0%nat made.2 = (Raise (ValueError msg), made.2).
Proof.
  intros made.
  assert (made = (Ok (Ref 0%nat), made.2)) as Hmade by (vm_compute; reflexivity).
  assert (¬ (3%nat = length [LInt 1; LInt 2]
             ∧ 2%nat = length [LStr "a"; LStr "b"])) as Hne
    by (intros [Hrows _]; discriminate Hrows).
  split; [exact Hmade|]. split; [reflexivity|]. split; [exact Hne|].
  destruct (mean_and_var_raise_on_mismatched_labels (λ x, x) example_mean
              (Arr0 (PyInt 1)) [LInt 1; LInt 2] [LStr "a"; LStr "b"]
              3 2 empty_world (Ref 0%nat) made.2 Hmade eq_refl Hne)
    as (a & msg & Ha & Hmean & _).
  injection Ha as <-. by exists msg.
Defined.

(** ** Selecting by lists of positions *)

Section ListSelection.
Context {V : Type}.
Implicit Types (self t : table V) (w : world V) (r c : option (selector Z)).
Implicit Types (d : tfd.distribution V) (a : ndarray V).

(** The course of [_iloc], step by step. *)
Lemma iloc_unfold self r c w :
  _BaseTFProba._iloc self r c w
  = match _BaseTFProba.get_distr self with
    | Raise e => (Raise e, w)
    | Ok d =>
        match _BaseTFProba._subset_params self r c with
        | Raise e => (Raise e, w)
        | Ok sp =>
            let w1 := {| heap := heap w; stdout := stdout w ++ [sp] |} in
            match tfd.call (tfd.type d) sp with
            | Raise e => (Raise e, w1)
            | Ok d' =>
                match _BaseTFProba.subset_not_none (index self) r with
                | Raise e => (Raise e, w1)
                | Ok rows =>
                    match _BaseTFProba.subset_not_none (columns self) c with
                    | Raise e => (Raise e, w1)
                    | Ok cols =>
                        (Ok (Ref (length (heap w))),
                         {| heap := heap w ++ [subset_table d' rows cols];
                            stdout := stdout w ++ [sp] |})
                    end
                end
            end
        end
    end.
Proof.
  unfold _BaseTFProba._iloc, mbind, M_bind, lift, print, new.
  destruct (_BaseTFProba.get_distr self) as [d|e]; simpl; [|done].
  destruct (_BaseTFProba._subset_params self r c) as [sp|e]; simpl; [|done].
  destruct (tfd.call (tfd.type d) sp) as [d'|e]; simpl; [|done].
  destruct (_BaseTFProba.subset_not_none (index self) r) as [rows|e];
    simpl; [|done].
  by destruct (_BaseTFProba.subset_not_none (columns self) c) as [cols|e].
Qed.


Lemma getitem_list_Raise a (js : list Z) e :
  getitem a (ListLike js) = Raise e → e = IndexError.
Proof.
  destruct a as [x|xs|ncols rows]; simpl.
  - by intros [= <-].
  - destruct (list_positions js (length xs)) as [ps|e'] eqn:Hps; simpl.
    + destruct (pick ps xs) as [ys|e'] eqn:Hys; simpl; [done|].
      intros [= <-]. by apply pick_Raise in Hys.
    + intros [= <-]. by apply list_positions_Raise in Hps as [-> _].
  - destruct (list_positions js (length rows)) as [ps|e'] eqn:Hps; simpl.
    + destruct (pick ps rows) as [ys|e'] eqn:Hys; simpl; [done|].
      intros [= <-]. by apply pick_Raise in Hys.
    + intros [= <-]. by apply list_positions_Raise in Hps as [-> _].
Qed.

Lemma getitem_cols_list_Raise a (js : list Z) e :
  getitem_cols a (ListLike js) = Raise e → e = IndexError.
Proof.
  destruct a as [x|xs|ncols rows]; simpl; try (by intros [= <-]).
  destruct (list_positions js ncols) as [ps|e'] eqn:Hps; simpl.
  - destruct (mapM (pick ps) rows) as [rs|e'] eqn:Hrs; simpl; [done|].
    intros [= <-]. apply mapM_Raise_exists in Hrs as (row & _ & Hrow).
    by apply pick_Raise in Hrow.
  - intros [= <-]. by apply list_positions_Raise in Hps as [-> _].
Qed.

(** With lists of positions, indexing an array raises nothing but an
    [IndexError]. *)
Lemma subset_array_list_Raise r c a e :
  list_or_none r → list_or_none c →
  _BaseTFProba.subset_array r c a = Raise e → e = IndexError.
Proof.
  intros Hr Hc. unfold _BaseTFProba.subset_array.
  destruct r as [[| |js]|]; try done; destruct c as [[| |js']|]; try done;
    case_decide; simpl;
    repeat match goal with
    | |- context [getitem a (ListLike ?x)] =>
        let H := fresh "Hg" in
        destruct (getitem a (ListLike x)) eqn:H; simpl;
        [|apply getitem_list_Raise in H as ->; by intros [= <-]]
    end; try done; try apply getitem_list_Raise;
    try apply getitem_cols_list_Raise.
Qed.

Lemma subset_params_list_Raise self d r c e :
  _BaseTFProba.get_distr self = Ok d →
  list_or_none r → list_or_none c →
  _BaseTFProba._subset_params self r c = Raise e → e = IndexError.
Proof.
  intros Hd Hr Hc Hsp.
  rewrite (subset_params_collect _ _ _ _ Hd) in Hsp.
  apply collect_Raise in Hsp as (k & Hk & Hg).
  apply elem_of_difference in Hk as [[a Ha]%elem_of_dom _].
  unfold subset_entry in Hg. rewrite Ha in Hg. simpl in Hg.
  by apply (subset_array_list_Raise r c a).
Qed.



End ListSelection.

Section ListSelectionErrors.
Context {V : Type}.
Implicit Types (self t : table V) (w : world V) (r c : option (selector Z)).
Implicit Types (d : tfd.distribution V) (a : ndarray V).


End ListSelectionErrors.

(** X8.  The table a position-based selection returns has one row for
    every requested row position and one column for every requested
    column position, repetitions counted; an axis selected with [None]
    keeps its length.  A selection that returns a table was asked with
    lists or [None] only. *)
Theorem selection_has_the_requested_shape {V} (self : table V)
    (r c : option (selector Z)) (w : world V) v w' :
  _BaseTFProba._iloc self r c w = (Ok v, w') →
  list_or_none r ∧ list_or_none c ∧
  ∃ t', get_table w' v = Some t' ∧
        BaseProba.shape t'
        = (selected_length r (length (index self)),
           selected_length c (length (columns self))).
Proof.
  intros (d & sp & t' & _ & _ & Ht' & _ & Hr & Hc)%iloc_params.
  apply subset_not_none_length in Hr as [Hr Hrows].
  apply subset_not_none_length in Hc as [Hc Hcols].
  split; [by destruct Hr as [->|[js ->]]|].
  split; [by destruct Hc as [->|[js ->]]|].
  exists t'. split; [done|]. unfold BaseProba.shape. by rewrite Hrows, Hcols.
Qed.

Lemma selection_has_the_requested_shape_witness :
  let run := _BaseTFProba._iloc example_table (Some (ListLike [2; 2; 0; -1]))
               None example_world in
  run = (Ok (Ref 1%nat), run.2) ∧
  ∃ t', get_table run.2 (Ref 1%nat) = Some t' ∧
        BaseProba.shape t' = (4%nat, 2%nat).
Proof.
  intros run.
  assert (run = (Ok (Ref 1%nat), run.2)) as Hrun by (vm_compute; reflexivity).
  split; [exact Hrun|].
  exact (proj2 (proj2 (selection_has_the_requested_shape example_table
           (Some (ListLike [2; 2; 0; -1])) None example_world _ _ Hrun))).
Defined.




(** X10.  A table one of whose parameters (under a name that is not
    reserved) is a scalar, an array of rank 0, cannot be subset: every
    selection with lists of positions or of labels, on the rows, the
    columns or both, raises an [IndexError] in [_subset_params], before
    anything is printed or created. *)
Theorem scalar_parameter_blocks_selection {V} (self : table V)
    (d : tfd.distribution V) (k : string) (x : V) (w : world V) :
  distr self = Some d →
  k ∉ _BaseTFProba.reserved_names →
  tfd.parameters d !! k = Some (Arr0 x) →
  (∀ r c : option (selector Z),
     list_or_none r → list_or_none c → ¬ (r = None ∧ c = None) →
     _BaseTFProba._iloc self r c w = (Raise IndexError, w)) ∧
  (∀ r c : option (selector label),
     list_or_none r → list_or_none c → ¬ (r = None ∧ c = None) →
     _BaseTFProba._loc self r c w = (Raise IndexError, w)).
Proof.
  intros Hd Hk Hx.
  assert (_BaseTFProba.get_distr self = Ok d) as Hgd
    by (unfold _BaseTFProba.get_distr; by rewrite Hd).
  assert (∀ r c : option (selector Z),
            list_or_none r → list_or_none c → ¬ (r = None ∧ c = None) →
            _BaseTFProba._iloc self r c w = (Raise IndexError, w)) as Hiloc.
  { intros r c Hr Hc Hsome. rewrite iloc_unfold, Hgd.
    destruct (_BaseTFProba._subset_params self r c) as [sp|e] eqn:Hsp.
    - exfalso. destruct (subset_params_Ok _ _ _ _ _ Hgd Hsp) as [_ Hall].
      rewrite <- elem_of_reserved in Hk.
      destruct (Hall k (Arr0 x) Hk Hx) as (a' & Ha' & _).
      unfold _BaseTFProba.subset_array in Ha'.
      destruct r as [[| |js]|]; try done; destruct c as [[| |js']|]; try done;
        simpl in Ha'; try done.
      apply Hsome. split; reflexivity.
    - by rewrite (subset_params_list_Raise _ _ _ _ _ Hgd Hr Hc Hsp). }
  split; [exact Hiloc|].
  intros r c Hr Hc Hsome.
  unfold _BaseTFProba._loc, mbind at 1 2, M_bind, lift.
  destruct r as [[| |ls]|]; try done; destruct c as [[| |ls']|]; try done;
    simpl;
    try (apply Hiloc; [exact I | exact I | intros [H1 H2]; discriminate]).
  exfalso. apply Hsome. split; reflexivity.
Qed.

Lemma scalar_parameter_blocks_selection_witness :
  let t := {| cls := C_tfd_Normal;
              index := [LInt 0; LInt 1; LInt 2];
              columns := [LInt 0; LInt 1];
              distr := Some {| tfd.type := tfd.Normal;
                               tfd.parameters :=
                                 {[ "loc" := example_mean;
                                    "scale" := Arr0 (PyInt 1) ]}
                                 ∪ tfd.defaults tfd.Normal |};
              attrs := ∅ |} in
  ("scale" ∉ _BaseTFProba.reserved_names) ∧
  _BaseTFProba._loc t (Some (ListLike [LInt 1])) None example_world
  = (Raise IndexError, example_world).
Proof.
  intros t.
  assert ("scale" ∉ _BaseTFProba.reserved_names) as Hk.
  { intros Hin. repeat (apply elem_of_cons in Hin as [Heq|Hin]; [discriminate Heq|]).
    by apply elem_of_nil in Hin. }
  split; [exact Hk|].
  apply (proj2 (scalar_parameter_blocks_selection t _ "scale" (PyInt 1)
                  example_world eq_refl Hk eq_refl)); [exact I | exact I |].
  intros [Hr _]. discriminate Hr.
Defined.

(** ** Tables that can be subset again and again *)

Section Selectable.
Context {V : Type}.
Implicit Types (self t : table V) (w : world V) (r c : option (selector Z)).
Implicit Types (d : tfd.distribution V) (a : ndarray V).





End Selectable.






(** ** The constructors *)

Section Constructors.
Context {V : Type} `{!PyCell V}.
Implicit Types (w : world V) (mean sd mu sigma : ndarray V).




End Constructors.

(** X13.  [normal.Normal(mu, sigma, index, columns)] returns a table
    exactly when [mu] and [sigma] broadcast to a common shape that has a
    first axis if the row labels are left out and a second axis if the
    column labels are left out.  The labels that are given are taken as
    they are: their number has no part in it. *)
Theorem Normal_init_returns_iff {V} (mu sigma : ndarray V)
    (index0 columns0 : option (list label)) (w : world V) :
  (∃ v w', Normal.__init__ mu sigma index0 columns0 w = (Ok v, w')) ↔
  ∃ s, np.broadcast_shapes (np.shape mu) (np.shape sigma) = Ok s ∧
       (index0 = None → (1 ≤ length s)%nat) ∧
       (columns0 = None → (2 ≤ length s)%nat).
Proof.
  split.
  - intros (v & w' & (s & rows & cols & Hs & Hrows & Hcols & _)%Normal_init_Ok).
    exists s. split; [done|]. split.
    + intros ->. destruct Hrows as (n & Hn & _).
      apply lookup_lt_Some in Hn. lia.
    + intros ->. destruct Hcols as (m & Hm & _).
      apply lookup_lt_Some in Hm. lia.
  - intros (s & Hs & Hi & Hc).
    unfold Normal.__init__, Normal._get_bc_params, np.broadcast_arrays.
    unfold mbind, M_bind, result_bind, lift, new, item. rewrite Hs. simpl.
    rewrite (proj1 (broadcast_to_shape _ _ _ Hs)).
    destruct index0 as [l|], columns0 as [l'|]; simpl.
    + by eexists _, _.
    + destruct (lookup_lt_is_Some_2 s 1%nat) as [m ->]; [by apply Hc|].
      by eexists _, _.
    + destruct (lookup_lt_is_Some_2 s 0%nat) as [n ->]; [by apply Hi|].
      by eexists _, _.
    + destruct (lookup_lt_is_Some_2 s 0%nat) as [n ->]; [by apply Hi|].
      destruct (lookup_lt_is_Some_2 s 1%nat) as [m ->]; [by apply Hc|].
      by eexists _, _.
Qed.


Lemma Normal_init_returns_iff_witness :
  ∃ v w', Normal.__init__ (Arr0 (PyInt 0)) (Arr0 (PyInt 1))
            (Some [LInt 1; LInt 2; LInt 5]) (Some [LStr "a"; LStr "b"])
            empty_world = (Ok v, w').
Proof.
  apply (proj2 (Normal_init_returns_iff (Arr0 (PyInt 0)) (Arr0 (PyInt 1))
                  (Some [LInt 1; LInt 2; LInt 5]) (Some [LStr "a"; LStr "b"])
                  empty_world)).
  exists []. split; [reflexivity|]. split; intros Hnone; discriminate Hnone.
Defined.



